(** * Build-settings resolver of trackformer's [ha4detr] extension

    A shallow embedding of
    [src/trackformer/models/ops/setup_settings.py]: the CUDA environment
    check [_verify_cuda_environment] and the platform dispatch
    [get_extensions_settings], followed by the properties of the
    specification that concern them.

    The host (platform name, the installed torch, the process environment,
    the file system, the [nvcc] subprocess) is a record of observations;
    [print] and [raise] are threaded through a small output-and-exception
    monad, so that what was printed before an exception stays visible.
    Whether the interpreter runs with assertions ([python] without [-O]) is
    part of the host, and so is its [str.lower]. Strings stand for Python
    [str] values in their UTF-8 bytes. *)

From stdpp Require Import gmap strings list.
From Stdlib Require Import Ascii String.

Local Open Scope string_scope.
Local Open Scope list_scope.

(** ** Python strings *)

Module PyStr.

(** [needle in hay] *)
Fixpoint contains (needle hay : string) : bool :=
  String.prefix needle hay ||
  match hay with
  | EmptyString => false
  | String _ rest => contains needle rest
  end.

(** [s.split(".")[0]]: the text before the first dot, all of [s] when it
    has none. *)
Fixpoint before_dot (s : string) : string :=
  match s with
  | EmptyString => EmptyString
  | String c rest =>
      if Ascii.eqb c "."%char then EmptyString else String c (before_dot rest)
  end.

(** [s * n] *)
Fixpoint times (s : string) (n : nat) : string :=
  match n with
  | O => EmptyString
  | S k => (s ++ times s k)%string
  end.

(** An [Optional[str]] is truthy when it is a non-empty string;
    [nonempty] gives that string. *)
Definition nonempty (o : option string) : option string :=
  match o with
  | Some s => if String.eqb s "" then None else Some s
  | None => None
  end.

Definition truthy (o : option string) : bool :=
  match nonempty o with Some _ => true | None => false end.

(** [a or b] *)
Definition py_or (a b : option string) : option string :=
  if truthy a then a else b.

End PyStr.

(** ** Paths *)

(** [pathlib] expressions of the module, kept as written; what they denote
    on disk and how they print is the host's business. *)
Inductive Path :=
| ModuleDir                          (* Path(__file__).parent *)
| PathOf (s : string)                (* Path(s) *)
| Div (p : Path) (name : string)     (* p / name *)
| Resolve (p : Path).                (* p.resolve() *)

Definition ROOT : Path := ModuleDir.
Definition SRC : Path := Div ROOT "src".
Definition SRC_BASE : Path := Div SRC "ha4detr".
Definition SRC_CPU : Path := Div SRC_BASE "cpu".
Definition SRC_CUDA : Path := Div SRC_BASE "cuda".

(** ** The host *)

(** [library_paths] of [torch.utils.cpp_extension] selects CUDA by a keyword
    that was renamed between releases: [library_paths(cuda=True)] in the
    older ones, [library_paths(device_type="cuda")] in the newer ones. A
    given torch has one of the two and rejects the other. *)
Inductive lp_keyword := kw_cuda | kw_device_type.

(** What [torch] exposes once it is importable. *)
Record Torch := {
  cuda_is_available : bool;            (* torch.cuda.is_available() *)
  backends_cuda_is_built : bool;       (* torch.backends.cuda.is_built() *)
  version_cuda : option string;        (* torch.version.cuda *)
  CUDA_HOME : option string;           (* torch.utils.cpp_extension.CUDA_HOME *)
  include_paths : list string;         (* include_paths() *)
  library_paths_keyword : lp_keyword;  (* the keyword this torch's library_paths has *)
  library_paths : list string;         (* what it returns when asked for CUDA *)
}.

Definition lp_keyword_eqb (a b : lp_keyword) : bool :=
  match a, b with
  | kw_cuda, kw_cuda | kw_device_type, kw_device_type => true
  | _, _ => false
  end.

Definition keyword_name (kw : lp_keyword) : string :=
  match kw with kw_cuda => "cuda" | kw_device_type => "device_type" end.

Record Host := {
  platform_system : string;            (* platform.system() *)
  torch : option Torch;                (* None: importing torch raises ImportError *)
  os_environ : gmap string string;     (* os.environ *)
  path_exists : Path -> bool;          (* p.exists() *)
  path_str : Path -> string;           (* str(p) *)
  path_glob : Path -> string -> list Path;   (* p.glob(pattern) *)
  os_path_relpath : Path -> Path -> string;  (* os.path.relpath(p, start) *)
  popen_read : Path -> option string;
    (* os.popen('"<nvcc>" --version').read(); None: it raised *)
  str_lower : string -> string;
    (* s.lower(), by the Unicode tables of the interpreter *)
  assertions_enabled : bool;
    (* __debug__: False under python -O or PYTHONOPTIMIZE, which removes
       every assert statement together with the expression it tests *)
}.

(** ** Output and exceptions *)

Inductive pyval :=
| VNone
| VStr (s : string)
| VList (l : list string).

Definition of_opt (o : option string) : pyval :=
  match o with Some s => VStr s | None => VNone end.

(** A printed line: literal or interpolated text, and values shown with
    [repr] (the [{x=}] fields and interpolated lists). *)
Inductive piece :=
| Text (s : string)
| Repr (v : pyval).

Definition line := list piece.

Inductive exn :=
| ImportError
| AssertionError (msg : string)
| AttributeError (msg : string)
| TypeError (msg : string)
| SyntaxError.

Inductive outcome (A : Type) :=
| Return (a : A)
| Raise (e : exn).
Arguments Return {A} a.
Arguments Raise {A} e.

(** A computation maps the lines printed so far to its outcome and the lines
    printed after it. *)
Definition Py (A : Type) : Type := list line -> outcome A * list line.

Definition ret {A} (a : A) : Py A := fun out => (Return a, out).

Definition bind {A B} (c : Py A) (k : A -> Py B) : Py B :=
  fun out =>
    match c out with
    | (Return a, out') => k a out'
    | (Raise e, out') => (Raise e, out')
    end.

Definition raise {A} (e : exn) : Py A := fun out => (Raise e, out).

Definition print (l : line) : Py unit := fun out => (Return tt, out ++ [l]).

Declare Scope py_scope.
Delimit Scope py_scope with py.
Notation "x <- c ;; k" := (bind c (fun x => k))
  (at level 100, c at level 50, right associativity) : py_scope.
Notation "c ;; k" := (bind c (fun _ => k))
  (at level 100, right associativity) : py_scope.
Local Open Scope py_scope.

(** A run from an empty terminal. *)
Definition run {A} (c : Py A) : outcome A * list line := c [].

(** [assert cond, msg]: with assertions enabled the condition is evaluated
    and a false one raises; without them the statement is not there, and the
    condition is not evaluated either. *)
Definition py_assert (enabled : bool) (cond : Py bool) (msg : string) : Py unit :=
  if enabled then
    ok <- cond ;;
    if ok then ret tt else raise (AssertionError msg)
  else ret tt.

(** A call [library_paths(<kw>=...)] asking for the CUDA directories. *)
Definition call_library_paths (t : Torch) (kw : lp_keyword) : Py (list string) :=
  if lp_keyword_eqb kw (library_paths_keyword t) then ret (library_paths t)
  else raise (TypeError ("library_paths() got an unexpected keyword argument '"
                         ++ keyword_name kw ++ "'")%string).

(** [[f(x) for x in l]], stopping at the first exception. *)
Fixpoint comprehension {A B} (f : A -> Py B) (l : list A) : Py (list B) :=
  match l with
  | [] => ret []
  | x :: rest =>
      y <- f x ;;
      ys <- comprehension f rest ;;
      ret (y :: ys)
  end.

(** ** Extensions *)

Inductive ext_class := CUDAExtension | CppExtension.

(** An element of [include_dirs]: a directory, or a list of directories
    passed as one element. *)
Inductive include_entry :=
| Dir (s : string)
| Dirs (l : list string).

(** The keyword arguments of one [CUDAExtension(...)] or [CppExtension(...)]
    call; [None] stands for a keyword that is not passed, and the
    [extra_compile_args] dict keeps the order of its literal. *)
Record Extension := {
  class : ext_class;
  name : string;
  sources : list string;
  include_dirs : list include_entry;
  library_dirs : option (list string);
  extra_link_args : option (list string);
  extra_compile_args : list (string * list string);
}.

(** ** [_verify_cuda_environment] *)

Section Resolver.

Variable h : Host.

Definition _IS_WINDOWS_BUILD : bool := String.eqb (platform_system h) "Windows".

Definition rel (p : Path) : string := os_path_relpath h p ROOT.

(** [system in ("Windows", "Linux")] *)
Definition cuda_platform (system : string) : bool :=
  String.eqb system "Windows" || String.eqb system "Linux".

Definition msg_unsupported (system : string) : line :=
  [Text "Unsupported platform '"; Text system;
   Text "' to build this on with CUDA support. ";
   Text "ha4detr only supports building on Windows or Linux with CUDA."].
Definition msg_no_torch : line :=
  [Text "PyTorch must be installed BEFORE building ha4detr."].
Definition msg_no_device : line :=
  [Text "PyTorch reports that CUDA is NOT available on this system. Cannot build CUDA extension."].
Definition msg_not_built : line :=
  [Text "Your PyTorch build was compiled WITHOUT CUDA. Install a CUDA-enabled PyTorch distribution."].
Definition msg_no_version : line :=
  [Text "Torch does not expose a valid CUDA version (torch.version.cuda). Cannot safely build."].
Definition msg_no_home : line :=
  [Text "CUDA_HOME / CUDA_PATH is not set. Please set it to your local CUDA toolkit path."].
Definition msg_no_nvcc (nvcc : Path) : line :=
  [Text "nvcc not found at expected path: "; Text (path_str h nvcc)].
Definition msg_incomplete : line :=
  [Text "Your CUDA installation is incomplete or incorrect."].
Definition msg_ok : line := [Text "CUDA environment OK"].

Definition banner : line :=
  [Text "*************************************************************"].
Definition msg_mismatch (torch_cuda system_nvcc_output : string) : list line :=
  [ banner;
    [Text "* WARNING: CUDA version mismatch between PyTorch and system *"];
    [Text "* This may still work, but is not guaranteed.               *"];
    [Text "* Torch CUDA:"; Text " "; Text torch_cuda];
    [Text "* nvcc --version output:"; Text " "; Text system_nvcc_output];
    banner ].

Fixpoint print_all (ls : list line) : Py unit :=
  match ls with
  | [] => ret tt
  | l :: rest => print l ;; print_all rest
  end.

(** [os.environ.get("CUDA_HOME") or os.environ.get("CUDA_PATH") or CUDA_HOME] *)
Definition toolkit_home (t : Torch) : option string :=
  PyStr.py_or (os_environ h !! "CUDA_HOME")
    (PyStr.py_or (os_environ h !! "CUDA_PATH") (CUDA_HOME t)).

Definition exe_postfix : string :=
  if _IS_WINDOWS_BUILD then "nvcc.exe" else "nvcc".

Definition nvcc_path (cuda_home : string) : Path :=
  Div (Div (PathOf cuda_home) "bin") exe_postfix.

(** The text the version check searches: the lowered output of
    [nvcc --version], empty when the query raised. *)
Definition nvcc_output (nvcc : Path) : string :=
  match popen_read h nvcc with
  | Some out => str_lower h out
  | None => ""
  end.

Definition _verify_cuda_environment : Py bool :=
  let system := platform_system h in
  if negb (cuda_platform system) then
    print (msg_unsupported system) ;;
    ret true
  else
    match torch h with
    | None => print msg_no_torch ;; ret false
    | Some t =>
        if negb (cuda_is_available t) then print msg_no_device ;; ret false
        else if negb (backends_cuda_is_built t) then print msg_not_built ;; ret false
        else
          match PyStr.nonempty (version_cuda t) with
          | None => print msg_no_version ;; ret false
          | Some torch_cuda =>
              match PyStr.nonempty (toolkit_home t) with
              | None => print msg_no_home ;; ret false
              | Some cuda_home =>
                  let nvcc := nvcc_path cuda_home in
                  if negb (path_exists h nvcc) then
                    print (msg_no_nvcc nvcc) ;;
                    print msg_incomplete ;;
                    ret false
                  else
                    let torch_major := PyStr.before_dot torch_cuda in
                    let system_nvcc_output := nvcc_output nvcc in
                    (if negb (PyStr.contains torch_major system_nvcc_output)
                     then print_all (msg_mismatch torch_cuda system_nvcc_output)
                     else ret tt) ;;
                    print msg_ok ;;
                    ret true
              end
          end
    end.

(** ** [get_extensions_settings] *)

Definition assert_message : string :=
  "You cannot run this build on this system - you would need to update it to match requirement!".

Definition cxx11_flags : list string := ["-D_GLIBCXX_USE_CXX11_ABI=1"; "-std=c++17"].

Definition _debug_print (t : Torch) : Py unit :=
  let cuda_home :=
    PyStr.py_or (os_environ h !! "CUDA_HOME") (os_environ h !! "CUDA_PATH") in
  print [Text (PyStr.times "*" 40)] ;;
  print [Text "CUDA_HOME="; Repr (of_opt (CUDA_HOME t));
         Text ", "; Text "cuda_home="; Repr (of_opt cuda_home)] ;;
  print [Text "os.getenv('CUDA_HOME')="; Repr (of_opt (os_environ h !! "CUDA_HOME"))] ;;
  print [Text "version.cuda="; Repr (of_opt (version_cuda t))] ;;
  print [Text (PyStr.times "*" 40)].

Definition _get_linux_settings (t : Torch) (all_source_paths : list string)
  : Py (list Extension) :=
  let local_includes := path_str h SRC_BASE in
  let cuda_sources := all_source_paths in
  let include_dirs := include_paths t in
  library_dirs <- call_library_paths t kw_device_type ;;
  let rpath := "-Wl,-rpath,$ORIGIN/../torch/lib" in
  let extra_link_args := [rpath] in
  let extra_args := [("cxx", cxx11_flags); ("nvcc", cxx11_flags)] in
  print [Text (PyStr.times "=" 40)] ;;
  print [Text "cuda_sources="; Repr (VList cuda_sources)] ;;
  print [Text (PyStr.times "=" 40)] ;;
  ret [ {| class := CUDAExtension;
           name := "ha4detr._hungarian";
           sources := cuda_sources;
           include_dirs := [Dir local_includes; Dirs include_dirs];
           library_dirs := Some library_dirs;
           extra_link_args := Some extra_link_args;
           extra_compile_args := extra_args |} ].

Definition _get_windows_settings (t : Torch) (all_source_paths : list string)
  : Py (list Extension) :=
  let extra_args :=
    [("cxx", ["/std:c++17"; "/Zc:__cplusplus"]);
     ("nvcc", ["-std=c++17"; "-Xcompiler=/std:c++17"; "-Xcompiler=/Zc:__cplusplus"])] in
  let torch_includes := include_paths t in
  let local_include := path_str h (Resolve SRC_BASE) in
  let include_dirs := map Dir ([local_include] ++ torch_includes) in
  library_dirs <- call_library_paths t kw_cuda ;;
  print [Text (PyStr.times "#" 40)] ;;
  print [Text "my sources for the build are "; Repr (VList all_source_paths)] ;;
  ret [ {| class := CUDAExtension;
           name := "ha4detr._hungarian";
           sources := all_source_paths;
           include_dirs := include_dirs;
           library_dirs := Some library_dirs;
           extra_link_args := None;
           extra_compile_args := extra_args |} ].

(** [p.relative_to(ROOT)] on a [str]: the attribute does not exist. *)
Definition no_relative_to : exn :=
  AttributeError "'str' object has no attribute 'relative_to'".

Definition str_relative_to (p : string) (other : Path) : Py Path :=
  raise no_relative_to.

(** The body of [get_extensions_settings] below its assertion: the source
    lists, the debug print and the branch on the platform. *)
Definition platform_settings (t : Torch) : Py (list Extension) :=
  let cpu_source_paths := map rel (path_glob h SRC_CPU "*.cpp") in
  let cuda_source_paths := map rel (path_glob h SRC_CUDA "*.cu") in
  let all_source_paths := cpu_source_paths ++ cuda_source_paths in
  let system := platform_system h in
  _debug_print t ;;
  if _IS_WINDOWS_BUILD then
    print [Text (PyStr.times "=" 40)] ;;
    print [Text " building for WINDOWS"] ;;
    print [Text (PyStr.times "=" 40)] ;;
    _get_windows_settings t all_source_paths
  else if String.eqb system "Linux" then
    _get_linux_settings t all_source_paths
  else if String.eqb system "Darwin" then
    srcs <- comprehension
              (fun p => q <- str_relative_to p ROOT ;; ret (path_str h q))
              cpu_source_paths ;;
    ret [ {| class := CppExtension;
             name := "ha4detr._hungarian";
             sources := srcs;
             include_dirs := [Dir (path_str h SRC_BASE)];
             library_dirs := None;
             extra_link_args := None;
             extra_compile_args :=
               [("cxx", cxx11_flags); ("nvcc", cxx11_flags)] |} ]
  else ret [].

(** The function opens by importing the extension classes from torch, which
    raises when torch is not installed; then it asserts the environment
    check, which is a statement the interpreter drops when assertions are
    off, and builds the settings. *)
Definition get_extensions_settings : Py (list Extension) :=
  match torch h with
  | None => raise ImportError
  | Some t =>
      py_assert (assertions_enabled h) _verify_cuda_environment assert_message ;;
      platform_settings t
  end.

End Resolver.

(** What the specification calls [usesAccelerator]. *)
Definition uses_accelerator (e : Extension) : bool :=
  match class e with CUDAExtension => true | CppExtension => false end.

(** The verdict of the check on a host, and what it printed. *)
Definition verdict (h : Host) : outcome bool := fst (run (_verify_cuda_environment h)).
Definition verifier_output (h : Host) : list line := snd (run (_verify_cuda_environment h)).

(** Checks 2 to 5 on an importable torch, on a platform that passed check 1:
    a device is visible, the build has CUDA, a version is exposed. *)
Definition runtime_ready (h : Host) (t : Torch) : bool :=
  cuda_platform (platform_system h) &&
  cuda_is_available t &&
  backends_cuda_is_built t &&
  PyStr.truthy (version_cuda t).

(** Checks 6 and 7: a toolkit home resolves and [nvcc] is where expected. *)
Definition toolkit_ready (h : Host) (t : Torch) : bool :=
  match PyStr.nonempty (toolkit_home h t) with
  | Some cuda_home => path_exists h (nvcc_path h cuda_home)
  | None => false
  end.

(** The same host with another answer to the [nvcc --version] query. *)
Definition with_popen (q : Path -> option string) (h : Host) : Host :=
  {| platform_system := platform_system h;
     torch := torch h;
     os_environ := os_environ h;
     path_exists := path_exists h;
     path_str := path_str h;
     path_glob := path_glob h;
     os_path_relpath := os_path_relpath h;
     popen_read := q;
     str_lower := str_lower h;
     assertions_enabled := assertions_enabled h |}.

(** The same host under [python -O]. *)
Definition with_optimize (h : Host) : Host :=
  {| platform_system := platform_system h;
     torch := torch h;
     os_environ := os_environ h;
     path_exists := path_exists h;
     path_str := path_str h;
     path_glob := path_glob h;
     os_path_relpath := os_path_relpath h;
     popen_read := popen_read h;
     str_lower := str_lower h;
     assertions_enabled := false |}.

Definition is_nested (d : include_entry) : bool :=
  match d with Dirs _ => true | Dir _ => false end.

(** ** Sample hosts *)

Module Hosts.

(** How the sample hosts print a path and take it relative to [ROOT]. *)
Fixpoint show (sep : string) (p : Path) : string :=
  match p with
  | ModuleDir => "ops"
  | PathOf s => s
  | Div q name => (show sep q ++ sep ++ name)%string
  | Resolve q => (sep ++ "repo" ++ sep ++ show sep q)%string
  end.

Fixpoint below (sep : string) (p : Path) : string :=
  match p with
  | Div ModuleDir name => name
  | Div q name => (below sep q ++ sep ++ name)%string
  | _ => "."
  end.

(** The sample hosts lower the ASCII letters, which is what [str.lower]
    does on the ASCII text they answer. *)
Definition lower_char (c : ascii) : ascii :=
  let n := nat_of_ascii c in
  if (65 <=? n)%nat && (n <=? 90)%nat then ascii_of_nat (n + 32) else c.

Fixpoint lower_ascii (s : string) : string :=
  match s with
  | EmptyString => EmptyString
  | String c rest => String (lower_char c) (lower_ascii rest)
  end.

(** An older torch, built for CUDA 12.1: [library_paths(cuda=True)]. *)
Definition torch_12_1 : Torch :=
  {| cuda_is_available := true;
     backends_cuda_is_built := true;
     version_cuda := Some "12.1";
     CUDA_HOME := Some "/usr/local/cuda";
     include_paths := ["/site/torch/include"; "/site/torch/include/torch/csrc/api/include"];
     library_paths_keyword := kw_cuda;
     library_paths := ["/site/torch/lib"; "/usr/local/cuda/lib64"] |}.

(** A newer torch, built for CUDA 12.6: [library_paths(device_type="cuda")]. *)
Definition torch_12_6 : Torch :=
  {| cuda_is_available := true;
     backends_cuda_is_built := true;
     version_cuda := Some "12.6";
     CUDA_HOME := Some "/usr/local/cuda";
     include_paths := ["/site/torch/include"; "/site/torch/include/torch/csrc/api/include"];
     library_paths_keyword := kw_device_type;
     library_paths := ["/site/torch/lib"; "/usr/local/cuda/lib64"] |}.

(** The same newer torch on a machine without a visible device. *)
Definition torch_12_6_no_device : Torch :=
  {| cuda_is_available := false;
     backends_cuda_is_built := true;
     version_cuda := Some "12.6";
     CUDA_HOME := Some "/usr/local/cuda";
     include_paths := ["/site/torch/include"];
     library_paths_keyword := kw_device_type;
     library_paths := ["/site/torch/lib"] |}.

Definition nvcc_11_8 : string :=
  "Cuda compilation tools, release 11.8, V11.8.89".

Definition nvcc_12_4 : string :=
  "Cuda compilation tools, release 12.4, V12.4.131".

Definition nvcc_12_6 : string :=
  "Cuda compilation tools, release 12.6, V12.6.85".

(** A host on [system] whose source tree has the given file names, running
    Python with assertions enabled. *)
Definition host (system : string) (t : option Torch) (env : gmap string string)
    (nvcc_there : bool) (version_query : option string)
    (cpu cuda : list string) : Host :=
  let sep := if String.eqb system "Windows" then "\" else "/" in
  {| platform_system := system;
     torch := t;
     os_environ := env;
     path_exists := fun _ => nvcc_there;
     path_str := show sep;
     path_glob := fun dir pattern =>
       map (Div dir) (if String.eqb pattern "*.cpp" then cpu else cuda);
     os_path_relpath := fun p _ => below sep p;
     popen_read := fun _ => version_query;
     str_lower := lower_ascii;
     assertions_enabled := true |}.

Definition linux : Host :=
  host "Linux" (Some torch_12_1) ∅ true (Some nvcc_11_8)
       ["hungarian.cpp"] ["hungarian.cu"].

Definition windows : Host :=
  host "Windows" (Some torch_12_1) {[ "CUDA_PATH" := "C:\cuda" ]} true None
       ["hungarian.cpp"] ["hungarian.cu"].

Definition torch_no_device : Torch :=
  {| cuda_is_available := false;
     backends_cuda_is_built := true;
     version_cuda := Some "12.1";
     CUDA_HOME := Some "/usr/local/cuda";
     include_paths := [];
     library_paths_keyword := kw_cuda;
     library_paths := [] |}.

Definition linux_no_device : Host :=
  host "Linux" (Some torch_no_device) ∅ true (Some nvcc_11_8)
       ["hungarian.cpp"] ["hungarian.cu"].

(** Linux hosts with the newer torch: with a device, and without one. *)
Definition linux_12_6 : Host :=
  host "Linux" (Some torch_12_6) ∅ true (Some nvcc_12_6)
       ["hungarian.cpp"] ["hungarian.cu"].

Definition linux_12_6_no_device : Host :=
  host "Linux" (Some torch_12_6_no_device) ∅ true (Some nvcc_12_6)
       ["hungarian.cpp"] ["hungarian.cu"].

Definition linux_no_nvcc : Host :=
  host "Linux" (Some torch_12_1) {[ "CUDA_HOME" := "/opt/cuda" ]} false None
       ["hungarian.cpp"] ["hungarian.cu"].

Definition torch_no_home : Torch :=
  {| cuda_is_available := true;
     backends_cuda_is_built := true;
     version_cuda := Some "12.1";
     CUDA_HOME := None;
     include_paths := [];
     library_paths_keyword := kw_cuda;
     library_paths := [] |}.

Definition linux_no_home : Host :=
  host "Linux" (Some torch_no_home) {[ "CUDA_HOME" := "" ]} true None [] [].

Definition darwin_empty : Host :=
  host "Darwin" (Some torch_12_1) ∅ false None [] [].

Definition darwin : Host :=
  host "Darwin" (Some torch_12_1) ∅ false None ["hungarian.cpp"] ["hungarian.cu"].

Definition freebsd : Host :=
  host "FreeBSD" (Some torch_12_1) ∅ false None ["hungarian.cpp"] ["hungarian.cu"].

Definition darwin_no_torch : Host :=
  host "Darwin" None ∅ false None ["hungarian.cpp"] ["hungarian.cu"].

Definition freebsd_no_torch : Host :=
  host "FreeBSD" None ∅ false None ["hungarian.cpp"] ["hungarian.cu"].

End Hosts.

(** ** The rest of the module, and [setup.py] *)

(** The class [build_ext_settings] hands to [cmdclass]. *)
Inductive build_ext_class := BuildExtension.

(** [build_ext_settings] imports [BuildExtension] from torch when called. *)
Definition build_ext_settings (h : Host) : Py build_ext_class :=
  match torch h with
  | None => raise ImportError
  | Some _ => ret BuildExtension
  end.

Definition foo_bar : string := "far bar is my name".

(** What [setup.py] reads besides the host: the interpreter's version, the
    directory of the script, and setuptools' package finder. *)
Record Driver := {
  version_major : nat;                 (* sys.version_info.major *)
  version_minor : nat;                 (* sys.version_info.minor *)
  version_info_str : string;           (* str(sys.version_info) *)
  script_dir : Path;                   (* pathlib.Path(__file__).parent in setup.py *)
  find_packages : string -> list string -> list string;
    (* setuptools.find_packages(where=..., exclude=...) *)
}.

(** [find_package] *)
Definition find_package (d : Driver) : list string :=
  find_packages d "src" ["models.ops.src.cpu"; "models.ops.src.cuda"].

(** The keyword arguments of a [setup(...)] call; [None] stands for a
    keyword that is not passed. *)
Record setup_call := {
  setup_name : string;
  package_dir : option (list (string * string));
  version : option string;
  install_requires : option (list string);
  packages : option (list string);
  ext_modules : option (list Extension);
  cmdclass : option (list (string * build_ext_class));
}.

(** The script is written with f-strings, which Python reads from 3.6 on
    (later major versions are taken to keep them). *)
Definition reads_fstrings (d : Driver) : bool :=
  Nat.ltb 3 (version_major d) ||
  (Nat.eqb (version_major d) 3 && Nat.leb 6 (version_minor d)).

(** [setup.py]: the call to [setup] it makes. An interpreter that cannot
    read the script stops with [SyntaxError] before running any of it. The
    settings module is taken to load (the file is there and its top level
    runs). *)
Definition setup_py (d : Driver) (h : Host) : Py setup_call :=
  if negb (reads_fstrings d) then raise SyntaxError
  else if Nat.eqb (version_major d) 3 && Nat.ltb (version_minor d) 10 then
    print [Text "Using python version "; Text (version_info_str d);
           Text ", we would keep using old style setups"] ;;
    ret {| setup_name := "trackformer";
           package_dir := Some [("", "src")];
           version := Some "0.0.1";
           install_requires := Some [];
           packages := None;
           ext_modules := None;
           cmdclass := None |}
  else
    let setup_path :=
      Div (Div (Div (Div (Div (script_dir d) "src") "trackformer") "models") "ops")
          "setup_settings.py" in
    print [Text "Using newer python version "; Text (version_info_str d);
           Text ", using new style install setups, loading setups from ";
           Text (path_str h setup_path)] ;;
    let pkgs := find_package d in
    exts <- get_extensions_settings h ;;
    build_ext <- build_ext_settings h ;;
    ret {| setup_name := "trackformer";
           package_dir := None;
           version := None;
           install_requires := None;
           packages := Some pkgs;
           ext_modules := Some exts;
           cmdclass := Some [("build_ext", build_ext)] |}.

Module Drivers.

Definition driver (major minor : nat) : Driver :=
  {| version_major := major;
     version_minor := minor;
     version_info_str := "sys.version_info";
     script_dir := PathOf ".";
     find_packages := fun _ _ => ["trackformer"; "trackformer.models"] |}.

Definition python_2_7 : Driver := driver 2 7.
Definition python_3_5 : Driver := driver 3 5.
Definition python_3_9 : Driver := driver 3 9.
Definition python_3_10 : Driver := driver 3 10.

End Drivers.

(** [needle] occurs somewhere in [hay]. *)
Definition occurs (needle hay : string) : Prop :=
  exists before after, hay = (before ++ needle ++ after)%string.

(** [field] is the text of [s] up to its first dot, all of [s] when it has
    none: what [s.split(".")[0]] is. *)
Definition first_field (s field : string) : Prop :=
  ~ occurs "." field /\
  (s = field \/ exists rest, s = (field ++ "." ++ rest)%string).

(** Unfolds the monad on a straight-line run and tidies the output list;
    the rewrite base [py_run] holds the equations of the printing helpers. *)
Create Rewrite HintDb py_run.

Ltac run_py :=
  unfold bind, print, ret, raise; simpl;
  autorewrite with py_run; simpl; rewrite <- ?app_assoc; simpl.

(** * Properties *)

(** ** The monad and the check in isolation *)

Lemma print_all_spec (ls out : list line) :
  print_all ls out = (Return tt, out ++ ls).
Proof.
  revert out. induction ls as [|l ls IH]; intros out; simpl.
  - unfold ret. by rewrite app_nil_r.
  - unfold bind, print. rewrite IH. by rewrite <- app_assoc.
Qed.

#[local] Hint Rewrite print_all_spec : py_run.

(** The check never raises, and what it does is independent of what was
    printed before it. *)
Lemma verify_frame (h : Host) (out : list line) :
  _verify_cuda_environment h out = (verdict h, out ++ verifier_output h).
Proof.
  unfold verdict, verifier_output, run, _verify_cuda_environment.
  repeat case_match; run_py; reflexivity.
Qed.

Lemma verify_total (h : Host) : exists b, verdict h = Return b.
Proof.
  unfold verdict, run, _verify_cuda_environment.
  repeat case_match; run_py; eauto.
Qed.

Lemma soft_pass (h : Host) :
  cuda_platform (platform_system h) = false ->
  run (_verify_cuda_environment h) = (Return true, [msg_unsupported (platform_system h)]).
Proof.
  intros Hp. unfold run, _verify_cuda_environment. rewrite Hp. reflexivity.
Qed.

(** ** Python's string operations *)

Lemma prefix_spec (p s : string) :
  String.prefix p s = true <-> exists rest, s = (p ++ rest)%string.
Proof.
  revert s. induction p as [|a p IH]; intros [|b s]; simpl.
  - split; [intros _; by exists EmptyString | done].
  - split; [intros _; by exists (String b s) | done].
  - split; [discriminate | intros [rest H]; discriminate H].
  - destruct (ascii_dec a b) as [->|Hne].
    + rewrite IH. split; intros [rest H]; exists rest.
      * by rewrite H.
      * by injection H.
    + split; [discriminate | intros [rest H]; injection H as H1 _; by destruct Hne].
Qed.

Lemma contains_cons (needle : string) (c : ascii) (hay : string) :
  PyStr.contains needle (String c hay) =
    String.prefix needle (String c hay) || PyStr.contains needle hay.
Proof. reflexivity. Qed.

(** [contains] is Python's [in] on strings: an occurrence somewhere. *)
Lemma contains_spec (needle hay : string) :
  PyStr.contains needle hay = true <-> occurs needle hay.
Proof.
  unfold occurs. induction hay as [|c hay IH].
  - change (PyStr.contains needle "") with (String.prefix needle "" || false).
    rewrite orb_false_r, prefix_spec. split.
    + intros [rest H]. by exists EmptyString, rest.
    + intros ([|b before] & after & H); [eauto | discriminate H].
  - rewrite contains_cons, orb_true_iff, prefix_spec, IH. split.
    + intros [[rest H] | (before & after & H)].
      * by exists EmptyString, rest.
      * exists (String c before), after. simpl. by rewrite H.
    + intros ([|b before] & after & H).
      * left. by exists after.
      * right. exists before, after. by injection H.
Qed.

Lemma contains_false (needle hay : string) :
  PyStr.contains needle hay = false <-> ~ occurs needle hay.
Proof.
  rewrite <- contains_spec. destruct (PyStr.contains needle hay); split; done.
Qed.

(** [before_dot] is [split(".")[0]]. *)
Lemma before_dot_field (s field : string) :
  first_field s field -> PyStr.before_dot s = field.
Proof.
  intros [Hno Hs]. revert s Hs. induction field as [|c field IH]; intros s Hs.
  - destruct Hs as [-> | [rest ->]]; reflexivity.
  - assert (Hc : c <> "."%char).
    { intros ->. apply Hno. by exists EmptyString, field. }
    assert (Hno' : ~ occurs "." field).
    { intros (a & b & ->). apply Hno. by exists (String c a), b. }
    apply Ascii.eqb_neq in Hc.
    destruct Hs as [-> | [rest ->]]; simpl; rewrite Hc; f_equal.
    + apply IH; [done | by left].
    + apply IH; [done | right; by exists rest].
Qed.

(** Every string has such a field. *)
Lemma first_field_total (s : string) : first_field s (PyStr.before_dot s).
Proof.
  induction s as [|c s [Hno Hs]]; simpl.
  - split; [|by left]. intros ([|? ?] & b & H); discriminate H.
  - destruct (Ascii.eqb_spec c "."%char) as [->|Hc].
    + split; [|right; by exists s]. intros ([|? ?] & b & H); discriminate H.
    + split.
      * intros ([|a0 a] & b & H); injection H as H1 H2; [done|].
        apply Hno. by exists a, b.
      * destruct Hs as [Hs | [rest Hs]].
        -- left. by f_equal.
        -- right. exists rest.
           change (String c s = String c (PyStr.before_dot s ++ "." ++ rest)%string).
           by f_equal.
Qed.

(** ** [get_extensions_settings] around its assertion *)

Lemma settings_no_torch (h : Host) :
  torch h = None -> run (get_extensions_settings h) = (Raise ImportError, []).
Proof. intros Ht. unfold run, get_extensions_settings. rewrite Ht. reflexivity. Qed.

(** With assertions enabled the check runs first and decides. *)
Lemma settings_checked (h : Host) (t : Torch) :
  torch h = Some t -> assertions_enabled h = true -> verdict h = Return true ->
  run (get_extensions_settings h) = platform_settings h t (verifier_output h).
Proof.
  intros Ht Ha Hv. unfold run, get_extensions_settings, py_assert. rewrite Ht, Ha.
  unfold bind at 1. unfold bind at 1. rewrite verify_frame, Hv. reflexivity.
Qed.

Lemma settings_refused (h : Host) (t : Torch) :
  torch h = Some t -> assertions_enabled h = true -> verdict h = Return false ->
  run (get_extensions_settings h) =
    (Raise (AssertionError assert_message), verifier_output h).
Proof.
  intros Ht Ha Hv. unfold run, get_extensions_settings, py_assert. rewrite Ht, Ha.
  unfold bind at 1. unfold bind at 1. rewrite verify_frame, Hv. reflexivity.
Qed.

(** Without them the check is not run at all. *)
Lemma settings_unchecked (h : Host) (t : Torch) :
  torch h = Some t -> assertions_enabled h = false ->
  run (get_extensions_settings h) = run (platform_settings h t).
Proof.
  intros Ht Ha. unfold run, get_extensions_settings, py_assert. rewrite Ht, Ha.
  reflexivity.
Qed.

(** What the check does once checks 1 to 5 have passed: it resolves the
    toolkit home and looks for the compiler. *)
Lemma runtime_ready_inv (h : Host) (t : Torch) :
  runtime_ready h t = true ->
  cuda_platform (platform_system h) = true /\
  cuda_is_available t = true /\
  backends_cuda_is_built t = true /\
  exists torch_cuda, PyStr.nonempty (version_cuda t) = Some torch_cuda.
Proof.
  unfold runtime_ready, PyStr.truthy. intros H.
  apply andb_prop in H as [H Hv]. apply andb_prop in H as [H Hb].
  apply andb_prop in H as [Hp Ha].
  destruct (PyStr.nonempty (version_cuda t)) as [v|]; [eauto 6 | discriminate].
Qed.

Lemma verify_no_home (h : Host) (t : Torch) :
  torch h = Some t -> runtime_ready h t = true ->
  PyStr.nonempty (toolkit_home h t) = None ->
  run (_verify_cuda_environment h) = (Return false, [msg_no_home]).
Proof.
  intros Ht Hr Hh. apply runtime_ready_inv in Hr as (Hp & Ha & Hb & v & Hv).
  unfold run, _verify_cuda_environment. rewrite Hp, Ht, Ha, Hb, Hv, Hh. reflexivity.
Qed.

Lemma verify_no_nvcc (h : Host) (t : Torch) (cuda_home : string) :
  torch h = Some t -> runtime_ready h t = true ->
  PyStr.nonempty (toolkit_home h t) = Some cuda_home ->
  path_exists h (nvcc_path h cuda_home) = false ->
  run (_verify_cuda_environment h) =
    (Return false, [msg_no_nvcc h (nvcc_path h cuda_home); msg_incomplete]).
Proof.
  intros Ht Hr Hh He. apply runtime_ready_inv in Hr as (Hp & Ha & Hb & v & Hv).
  unfold run, _verify_cuda_environment. rewrite Hp, Ht, Ha, Hb, Hv, Hh, He. reflexivity.
Qed.

Lemma verify_nvcc_found (h : Host) (t : Torch) (torch_cuda cuda_home : string) :
  torch h = Some t -> runtime_ready h t = true ->
  PyStr.nonempty (version_cuda t) = Some torch_cuda ->
  PyStr.nonempty (toolkit_home h t) = Some cuda_home ->
  path_exists h (nvcc_path h cuda_home) = true ->
  run (_verify_cuda_environment h) =
    (Return true,
     (if PyStr.contains (PyStr.before_dot torch_cuda) (nvcc_output h (nvcc_path h cuda_home))
      then []
      else msg_mismatch torch_cuda (nvcc_output h (nvcc_path h cuda_home)))
     ++ [msg_ok]).
Proof.
  intros Ht Hr Hv Hh He. apply runtime_ready_inv in Hr as (Hp & Ha & Hb & _).
  unfold run, _verify_cuda_environment. rewrite Hp, Ht, Ha, Hb, Hv, Hh, He. simpl.
  destruct (PyStr.contains _ _); reflexivity.
Qed.

Lemma truthy_nonempty (o : option string) :
  PyStr.truthy o = false -> PyStr.nonempty o = None.
Proof. unfold PyStr.truthy. by destruct (PyStr.nonempty o). Qed.

(** ** The order of the checks *)

(** C8: the check goes through its tests in order and stops at the first one
    that fails. Off Windows and Linux it passes at once, whatever the runtime
    is (even absent); on them a missing torch, then no visible device, then a
    torch built without CUDA, then no version string each end the check with
    [False] and a message of their own. *)
Theorem verify_short_circuits (h : Host) :
  (cuda_platform (platform_system h) = false ->
     run (_verify_cuda_environment h) =
       (Return true, [msg_unsupported (platform_system h)])) /\
  (cuda_platform (platform_system h) = true ->
     (torch h = None ->
        run (_verify_cuda_environment h) = (Return false, [msg_no_torch])) /\
     (forall t, torch h = Some t ->
        (cuda_is_available t = false ->
           run (_verify_cuda_environment h) = (Return false, [msg_no_device])) /\
        (cuda_is_available t = true -> backends_cuda_is_built t = false ->
           run (_verify_cuda_environment h) = (Return false, [msg_not_built])) /\
        (cuda_is_available t = true -> backends_cuda_is_built t = true ->
         PyStr.truthy (version_cuda t) = false ->
           run (_verify_cuda_environment h) = (Return false, [msg_no_version])))) /\
  NoDup [msg_no_torch; msg_no_device; msg_not_built; msg_no_version].
Proof.
  split; [apply soft_pass | split].
  - intros Hp. split.
    + intros Ht. unfold run, _verify_cuda_environment. rewrite Hp, Ht. reflexivity.
    + intros t Ht. repeat split.
      * intros Ha. unfold run, _verify_cuda_environment. rewrite Hp, Ht, Ha. reflexivity.
      * intros Ha Hb. unfold run, _verify_cuda_environment.
        rewrite Hp, Ht, Ha, Hb. reflexivity.
      * intros Ha Hb Hv. apply truthy_nonempty in Hv.
        unfold run, _verify_cuda_environment. rewrite Hp, Ht, Ha, Hb, Hv. reflexivity.
  - repeat constructor; rewrite ?elem_of_cons, ?elem_of_nil;
      unfold msg_no_torch, msg_no_device, msg_not_built, msg_no_version;
      intros H; repeat destruct H as [H|H]; try discriminate H; exact H.
Qed.

Lemma verify_short_circuits_witness :
  run (_verify_cuda_environment Hosts.freebsd_no_torch) =
    (Return true, [msg_unsupported "FreeBSD"]) /\
  run (_verify_cuda_environment Hosts.linux_no_device) = (Return false, [msg_no_device]).
Proof.
  split.
  - apply (proj1 (verify_short_circuits Hosts.freebsd_no_torch)). reflexivity.
  - destruct (verify_short_circuits Hosts.linux_no_device) as (_ & H & _).
    destruct (H eq_refl) as (_ & Ht).
    destruct (Ht _ eq_refl) as (Hd & _). apply Hd. reflexivity.
Defined.

(** ** The toolkit home and the compiler *)

(** C5: the toolkit home is [CUDA_HOME] of the environment when that is set to
    a non-empty string, else [CUDA_PATH] when that is, else the [CUDA_HOME]
    torch reports. Once the check has got that far (checks 1 to 5 passed),
    its verdict is whether [nvcc] exists under the home so chosen; and when
    none of the three is a non-empty string it returns [False] after
    printing that [CUDA_HOME] / [CUDA_PATH] is not set. *)
Theorem toolkit_home_precedence (h : Host) (t : Torch) :
  (PyStr.truthy (os_environ h !! "CUDA_HOME") = true ->
     toolkit_home h t = os_environ h !! "CUDA_HOME") /\
  (PyStr.truthy (os_environ h !! "CUDA_HOME") = false ->
   PyStr.truthy (os_environ h !! "CUDA_PATH") = true ->
     toolkit_home h t = os_environ h !! "CUDA_PATH") /\
  (PyStr.truthy (os_environ h !! "CUDA_HOME") = false ->
   PyStr.truthy (os_environ h !! "CUDA_PATH") = false ->
     toolkit_home h t = CUDA_HOME t) /\
  (torch h = Some t -> runtime_ready h t = true ->
     (forall cuda_home, PyStr.nonempty (toolkit_home h t) = Some cuda_home ->
        verdict h = Return (path_exists h (nvcc_path h cuda_home))) /\
     (PyStr.truthy (os_environ h !! "CUDA_HOME") = false ->
      PyStr.truthy (os_environ h !! "CUDA_PATH") = false ->
      PyStr.truthy (CUDA_HOME t) = false ->
        run (_verify_cuda_environment h) = (Return false, [msg_no_home]))).
Proof.
  split; [|split; [|split; [|intros Ht Hr; split]]].
  - unfold toolkit_home, PyStr.py_or. by intros ->.
  - unfold toolkit_home, PyStr.py_or. by intros -> ->.
  - unfold toolkit_home, PyStr.py_or. by intros -> ->.
  - intros cuda_home Hh. unfold verdict.
    destruct (path_exists h (nvcc_path h cuda_home)) eqn:He.
    + destruct (runtime_ready_inv h t Hr) as (_ & _ & _ & v & Hv).
      by rewrite (verify_nvcc_found h t v cuda_home).
    + by rewrite (verify_no_nvcc h t cuda_home).
  - intros H1 H2 H3. apply (verify_no_home h t Ht Hr).
    unfold toolkit_home, PyStr.py_or. rewrite H1, H2. by apply truthy_nonempty.
Qed.

Lemma toolkit_home_precedence_witness :
  toolkit_home Hosts.linux_no_nvcc Hosts.torch_12_1 = Some "/opt/cuda" /\
  toolkit_home Hosts.windows Hosts.torch_12_1 = Some "C:\cuda" /\
  toolkit_home Hosts.linux Hosts.torch_12_1 = Some "/usr/local/cuda" /\
  verdict Hosts.linux_no_nvcc = Return false /\
  run (_verify_cuda_environment Hosts.linux_no_home) = (Return false, [msg_no_home]).
Proof.
  refine (conj _ (conj _ (conj _ (conj _ _)))).
  - apply (proj1 (toolkit_home_precedence Hosts.linux_no_nvcc Hosts.torch_12_1)).
    reflexivity.
  - destruct (toolkit_home_precedence Hosts.windows Hosts.torch_12_1) as (_ & H & _).
    apply H; reflexivity.
  - destruct (toolkit_home_precedence Hosts.linux Hosts.torch_12_1) as (_ & _ & H & _).
    apply H; reflexivity.
  - destruct (toolkit_home_precedence Hosts.linux_no_nvcc Hosts.torch_12_1)
      as (_ & _ & _ & H).
    destruct (H eq_refl eq_refl) as [Hv _]. apply (Hv "/opt/cuda"). reflexivity.
  - destruct (toolkit_home_precedence Hosts.linux_no_home Hosts.torch_no_home)
      as (_ & _ & _ & H).
    destruct (H eq_refl eq_refl) as [_ Hn]. apply Hn; reflexivity.
Defined.

(** C7: on Windows or Linux, when a toolkit home resolves and there is no
    file at [<home>/bin/nvcc] ([nvcc.exe] on Windows), the check returns
    [False]; having passed checks 2 to 5 to reach the lookup, it prints
    [nvcc not found at expected path: ] followed by that very path. *)
Theorem missing_compiler (h : Host) (t : Torch) (cuda_home : string) :
  cuda_platform (platform_system h) = true ->
  torch h = Some t ->
  PyStr.nonempty (toolkit_home h t) = Some cuda_home ->
  path_exists h (nvcc_path h cuda_home) = false ->
  nvcc_path h cuda_home =
    Div (Div (PathOf cuda_home) "bin")
        (if String.eqb (platform_system h) "Windows" then "nvcc.exe" else "nvcc") /\
  verdict h = Return false /\
  (runtime_ready h t = true ->
     verifier_output h =
       [ [Text "nvcc not found at expected path: ";
          Text (path_str h (nvcc_path h cuda_home))];
         msg_incomplete ]).
Proof.
  intros Hp Ht Hh He. split; [reflexivity | split].
  - destruct (runtime_ready h t) eqn:Hr.
    + unfold verdict. by rewrite (verify_no_nvcc h t cuda_home).
    + unfold verdict, run, _verify_cuda_environment. rewrite Hp, Ht, Hh, He. simpl.
      unfold runtime_ready, PyStr.truthy in Hr. rewrite Hp in Hr. simpl in Hr.
      destruct (cuda_is_available t); [|reflexivity].
      destruct (backends_cuda_is_built t); [|reflexivity].
      destruct (PyStr.nonempty (version_cuda t)); [discriminate | reflexivity].
  - intros Hr. unfold verifier_output. by rewrite (verify_no_nvcc h t cuda_home).
Qed.

Lemma missing_compiler_witness :
  verdict Hosts.linux_no_nvcc = Return false /\
  verifier_output Hosts.linux_no_nvcc =
    [ [Text "nvcc not found at expected path: "; Text "/opt/cuda/bin/nvcc"];
      [Text "Your CUDA installation is incomplete or incorrect."] ].
Proof.
  destruct (missing_compiler Hosts.linux_no_nvcc Hosts.torch_12_1 "/opt/cuda")
    as (_ & Hv & Ho); try reflexivity.
  split; [exact Hv | apply Ho; reflexivity].
Defined.

(** ** The branch on the platform *)

(** The branch does not look at what was printed before it. *)
Lemma platform_settings_frame (h : Host) (t : Torch) (out : list line) :
  platform_settings h t out =
    (fst (run (platform_settings h t)), out ++ snd (run (platform_settings h t))).
Proof.
  unfold run, platform_settings, _IS_WINDOWS_BUILD.
  destruct (String.eqb (platform_system h) "Windows").
  { unfold _debug_print, _get_windows_settings, call_library_paths.
    destruct (lp_keyword_eqb _ _); run_py; reflexivity. }
  destruct (String.eqb (platform_system h) "Linux").
  { unfold _debug_print, _get_linux_settings, call_library_paths.
    destruct (lp_keyword_eqb _ _); run_py; reflexivity. }
  destruct (String.eqb (platform_system h) "Darwin").
  - destruct (path_glob h SRC_CPU "*.cpp"); unfold _debug_print; run_py; reflexivity.
  - unfold _debug_print. run_py. reflexivity.
Qed.

Lemma windows_branch (h : Host) (t : Torch) :
  platform_system h = "Windows" ->
  library_paths_keyword t = kw_cuda ->
  exists out,
    run (platform_settings h t) =
      (Return [ {| class := CUDAExtension;
                   name := "ha4detr._hungarian";
                   sources := map (rel h) (path_glob h SRC_CPU "*.cpp") ++
                              map (rel h) (path_glob h SRC_CUDA "*.cu");
                   include_dirs :=
                     Dir (path_str h (Resolve SRC_BASE)) :: map Dir (include_paths t);
                   library_dirs := Some (library_paths t);
                   extra_link_args := None;
                   extra_compile_args :=
                     [("cxx", ["/std:c++17"; "/Zc:__cplusplus"]);
                      ("nvcc", ["-std=c++17"; "-Xcompiler=/std:c++17";
                                "-Xcompiler=/Zc:__cplusplus"])] |} ], out) /\
    In [Text "my sources for the build are ";
        Repr (VList (map (rel h) (path_glob h SRC_CPU "*.cpp") ++
                     map (rel h) (path_glob h SRC_CUDA "*.cu")))] out.
Proof.
  intros Hs Hk. unfold run, platform_settings, _IS_WINDOWS_BUILD. rewrite Hs. simpl.
  unfold _debug_print, _get_windows_settings, call_library_paths. rewrite Hk.
  run_py. eexists. split; [reflexivity|]. do 9 right. by left.
Qed.

Lemma windows_branch_raises (h : Host) (t : Torch) :
  platform_system h = "Windows" ->
  library_paths_keyword t = kw_device_type ->
  exists out,
    run (platform_settings h t) =
      (Raise (TypeError "library_paths() got an unexpected keyword argument 'cuda'"), out).
Proof.
  intros Hs Hk. unfold run, platform_settings, _IS_WINDOWS_BUILD. rewrite Hs. simpl.
  unfold _debug_print, _get_windows_settings, call_library_paths. rewrite Hk.
  run_py. eauto.
Qed.

Lemma linux_branch (h : Host) (t : Torch) :
  platform_system h = "Linux" ->
  library_paths_keyword t = kw_device_type ->
  exists out,
    run (platform_settings h t) =
      (Return [ {| class := CUDAExtension;
                   name := "ha4detr._hungarian";
                   sources := map (rel h) (path_glob h SRC_CPU "*.cpp") ++
                              map (rel h) (path_glob h SRC_CUDA "*.cu");
                   include_dirs := [Dir (path_str h SRC_BASE); Dirs (include_paths t)];
                   library_dirs := Some (library_paths t);
                   extra_link_args := Some ["-Wl,-rpath,$ORIGIN/../torch/lib"];
                   extra_compile_args :=
                     [("cxx", ["-D_GLIBCXX_USE_CXX11_ABI=1"; "-std=c++17"]);
                      ("nvcc", ["-D_GLIBCXX_USE_CXX11_ABI=1"; "-std=c++17"])] |} ],
       out) /\
    In [Text "cuda_sources=";
        Repr (VList (map (rel h) (path_glob h SRC_CPU "*.cpp") ++
                     map (rel h) (path_glob h SRC_CUDA "*.cu")))] out.
Proof.
  intros Hs Hk. unfold run, platform_settings, _IS_WINDOWS_BUILD. rewrite Hs. simpl.
  unfold _debug_print, _get_linux_settings, call_library_paths. rewrite Hk.
  run_py. eexists. split; [reflexivity|]. do 6 right. by left.
Qed.

Lemma linux_branch_raises (h : Host) (t : Torch) :
  platform_system h = "Linux" ->
  library_paths_keyword t = kw_cuda ->
  exists out,
    run (platform_settings h t) =
      (Raise (TypeError "library_paths() got an unexpected keyword argument 'device_type'"),
       out).
Proof.
  intros Hs Hk. unfold run, platform_settings, _IS_WINDOWS_BUILD. rewrite Hs. simpl.
  unfold _debug_print, _get_linux_settings, call_library_paths. rewrite Hk.
  run_py. eauto.
Qed.

Lemma darwin_not_cuda (h : Host) :
  platform_system h = "Darwin" -> cuda_platform (platform_system h) = false.
Proof. by intros ->. Qed.

(** A comprehension whose element expression raises on every element raises
    on the first one, unless there is none. *)
Lemma comprehension_raises {A B} (f : A -> Py B) (e : exn) (l : list A) (out : list line) :
  (forall x out', f x out' = (Raise e, out')) ->
  l <> [] ->
  comprehension f l out = (Raise e, out).
Proof.
  intros Hf Hl. destruct l as [|x l]; [done|].
  simpl. unfold bind at 1. by rewrite Hf.
Qed.

(** The macOS branch, after the debug print. *)
Lemma darwin_branch (h : Host) (t : Torch) (out : list line) :
  platform_system h = "Darwin" ->
  exists out',
    (path_glob h SRC_CPU "*.cpp" = [] ->
       platform_settings h t out =
         (Return [ {| class := CppExtension;
                      name := "ha4detr._hungarian";
                      sources := [];
                      include_dirs := [Dir (path_str h SRC_BASE)];
                      library_dirs := None;
                      extra_link_args := None;
                      extra_compile_args :=
                        [("cxx", cxx11_flags); ("nvcc", cxx11_flags)] |} ],
          out ++ out')) /\
    (path_glob h SRC_CPU "*.cpp" <> [] ->
       platform_settings h t out = (Raise no_relative_to, out ++ out')).
Proof.
  intros Hs. unfold platform_settings, _IS_WINDOWS_BUILD. rewrite Hs. simpl.
  unfold _debug_print. run_py. eexists. split; intros Hg.
  - rewrite Hg. simpl. reflexivity.
  - rewrite comprehension_raises with (e := no_relative_to); [reflexivity|done|].
    intros Hm. by apply map_eq_nil in Hm.
Qed.

Lemma other_branch (h : Host) (t : Torch) :
  cuda_platform (platform_system h) = false ->
  platform_system h <> "Darwin" ->
  exists out, run (platform_settings h t) = (Return [], out).
Proof.
  intros Hp Hd. unfold cuda_platform in Hp. apply orb_false_elim in Hp as [Hw Hl].
  apply String.eqb_neq in Hd.
  unfold run, platform_settings, _IS_WINDOWS_BUILD. rewrite Hw, Hl, Hd.
  unfold _debug_print. run_py. eauto.
Qed.

Lemma keyword_cases (t : Torch) :
  library_paths_keyword t = kw_cuda \/ library_paths_keyword t = kw_device_type.
Proof. destruct (library_paths_keyword t); [by left | by right]. Qed.

(** All the outcomes of the branch, from an empty terminal. *)
Lemma platform_settings_cases (h : Host) (t : Torch) :
  (platform_system h = "Darwin" /\ path_glob h SRC_CPU "*.cpp" <> [] /\
   exists out, run (platform_settings h t) = (Raise no_relative_to, out)) \/
  (platform_system h = "Windows" /\ library_paths_keyword t = kw_device_type /\
   exists out,
     run (platform_settings h t) =
       (Raise (TypeError "library_paths() got an unexpected keyword argument 'cuda'"),
        out)) \/
  (platform_system h = "Linux" /\ library_paths_keyword t = kw_cuda /\
   exists out,
     run (platform_settings h t) =
       (Raise (TypeError
                 "library_paths() got an unexpected keyword argument 'device_type'"),
        out)) \/
  ((platform_system h = "Darwin" -> path_glob h SRC_CPU "*.cpp" = []) /\
   (platform_system h = "Windows" -> library_paths_keyword t = kw_cuda) /\
   (platform_system h = "Linux" -> library_paths_keyword t = kw_device_type) /\
   exists exts out,
     run (platform_settings h t) = (Return exts, out) /\
     ((exts = [] /\ cuda_platform (platform_system h) = false /\
       platform_system h <> "Darwin") \/
      (exists e, exts = [e] /\ name e = "ha4detr._hungarian" /\
                 uses_accelerator e = cuda_platform (platform_system h) /\
                 (platform_system h = "Darwin" \/
                  cuda_platform (platform_system h) = true)))).
Proof.
  destruct (String.eqb_spec (platform_system h) "Windows") as [Hw|Hw].
  { destruct (keyword_cases t) as [Hk|Hk].
    - do 3 right. destruct (windows_branch h t Hw Hk) as (out & Hr & _).
      repeat split; try congruence.
      eexists _, out. split; [exact Hr|]. right. eexists. repeat split.
      + by rewrite Hw.
      + right. by rewrite Hw.
    - right. left. split; [done | split; [done|]]. by apply windows_branch_raises. }
  destruct (String.eqb_spec (platform_system h) "Linux") as [Hl|Hl].
  { destruct (keyword_cases t) as [Hk|Hk].
    - right. right. left. split; [done | split; [done|]]. by apply linux_branch_raises.
    - do 3 right. destruct (linux_branch h t Hl Hk) as (out & Hr & _).
      repeat split; try congruence.
      eexists _, out. split; [exact Hr|]. right. eexists. repeat split.
      + by rewrite Hl.
      + right. by rewrite Hl. }
  destruct (String.eqb_spec (platform_system h) "Darwin") as [Hd|Hd].
  - destruct (darwin_branch h t [] Hd) as (out & Hnil & Hcons).
    destruct (path_glob h SRC_CPU "*.cpp") as [|p ps] eqn:Hg.
    + do 3 right. repeat split; try congruence.
      eexists _, _. split; [apply Hnil; reflexivity|]. right. eexists.
      repeat split; [by rewrite Hd | by left].
    + left. split; [done | split; [done|]]. eexists. by apply Hcons.
  - assert (Hp : cuda_platform (platform_system h) = false).
    { unfold cuda_platform. apply String.eqb_neq in Hw, Hl. by rewrite Hw, Hl. }
    do 3 right. repeat split; try congruence.
    destruct (other_branch h t Hp Hd) as [out Hr].
    eexists _, out. split; [exact Hr|]. by left.
Qed.

(** The call as a whole: what it does below the opening import. *)
Lemma settings_frame_checked (h : Host) (t : Torch) :
  torch h = Some t -> assertions_enabled h = true -> verdict h = Return true ->
  run (get_extensions_settings h) =
    (fst (run (platform_settings h t)),
     verifier_output h ++ snd (run (platform_settings h t))).
Proof.
  intros Ht Ha Hv. by rewrite (settings_checked h t Ht Ha Hv), platform_settings_frame.
Qed.

(** The result of the call, as far as the branch decides it: with torch
    importable and no refusal, the call ends as the branch does. *)
Lemma settings_result (h : Host) (t : Torch) :
  torch h = Some t ->
  (assertions_enabled h = true -> verdict h = Return true) ->
  fst (run (get_extensions_settings h)) = fst (run (platform_settings h t)) /\
  exists before,
    snd (run (get_extensions_settings h)) = before ++ snd (run (platform_settings h t)) /\
    before = (if assertions_enabled h then verifier_output h else []).
Proof.
  intros Ht Hv. destruct (assertions_enabled h) eqn:Ha.
  - rewrite (settings_frame_checked h t Ht Ha (Hv eq_refl)). simpl. eauto.
  - rewrite (settings_unchecked h t Ht Ha). split; [done|]. by exists [].
Qed.
(** ** The version check *)



(** ** Descriptors and the verdict *)

(** C3: the property is broken under [python -O]. The only guard between a
    failed check and the descriptor is an [assert] statement, which that mode
    removes together with the call of the check: on a Linux host without a
    visible device, where the check returns [False], the call returns a CUDA
    extension with the [.cu] source among its sources. *)
Lemma optimized_build_skips_check :
  assertions_enabled (with_optimize Hosts.linux_12_6_no_device) = false /\
  verdict (with_optimize Hosts.linux_12_6_no_device) = Return false /\
  exists e out,
    run (get_extensions_settings (with_optimize Hosts.linux_12_6_no_device)) =
      (Return [e], out) /\
    uses_accelerator e = true /\
    In "src/ha4detr/cuda/hungarian.cu" (sources e).
Proof.
  split; [reflexivity | split; [reflexivity|]].
  eexists _, _. split; [vm_compute; reflexivity|].
  split; [reflexivity|]. right. by left.
Qed.

(** With assertions enabled the guard works: a descriptor is only ever
    returned after the check returned [True] on that host, so a CUDA
    extension in particular is (and then the platform is Windows or Linux,
    where [True] means every check passed); when the check returns [False]
    the call raises and returns nothing. *)
Theorem accelerator_requires_verification (h : Host) :
  assertions_enabled h = true ->
  (forall exts out,
     run (get_extensions_settings h) = (Return exts, out) ->
     verdict h = Return true /\
     forall e, In e exts -> uses_accelerator e = true ->
               cuda_platform (platform_system h) = true) /\
  (verdict h = Return false ->
     exists e out, run (get_extensions_settings h) = (Raise e, out)).
Proof.
  intros Ha. split.
  - intros exts out Hrun.
    destruct (torch h) as [t|] eqn:Ht; [|by rewrite settings_no_torch in Hrun].
    destruct (verify_total h) as [[|] Hv];
      [|by rewrite (settings_refused h t) in Hrun].
    split; [exact Hv|]. intros e He Hacc.
    destruct (settings_result h t Ht (fun _ => Hv)) as [Hfst _].
    rewrite Hrun in Hfst. simpl in Hfst.
    destruct (platform_settings_cases h t)
      as [(_ & _ & o & Ho) | [(_ & _ & o & Ho) | [(_ & _ & o & Ho) | (_ & _ & _ & x & o & Ho & Hshape)]]];
      rewrite Ho in Hfst; try discriminate Hfst.
    injection Hfst as ->.
    destruct Hshape as [(-> & _) | (e' & -> & _ & Hu & _)]; [destruct He|].
    destruct He as [<-|[]]. by rewrite <- Hu.
  - intros Hv. destruct (torch h) as [t|] eqn:Ht.
    + rewrite (settings_refused h t Ht Ha Hv). eauto.
    + rewrite (settings_no_torch h Ht). eauto.
Qed.

Lemma accelerator_requires_verification_witness :
  verdict Hosts.linux_12_6 = Return true /\
  exists e out, run (get_extensions_settings Hosts.linux_no_device) = (Raise e, out).
Proof.
  split.
  - destruct (accelerator_requires_verification Hosts.linux_12_6 eq_refl) as [H _].
    eapply H. vm_compute. reflexivity.
  - apply (proj2 (accelerator_requires_verification Hosts.linux_no_device eq_refl)).
    reflexivity.
Defined.

Lemma map_Dir_flat (l : list string) : existsb is_nested (map Dir l) = false.
Proof. induction l as [|d l IH]; [reflexivity | exact IH]. Qed.

(** C10: the two CUDA descriptors shape [include_dirs] differently. On Linux
    it has two elements, the local directory and, as one element, the whole
    list of torch's include paths; on Windows it is one flat list, the
    resolved local directory followed by each of torch's include paths. This
    holds of every descriptor the call returns, and it returns one after a
    passed check when torch has the [library_paths] keyword of that branch. *)
Theorem include_dirs_shapes (h : Host) (t : Torch) :
  torch h = Some t ->
  (platform_system h = "Linux" ->
     (forall exts out,
        run (get_extensions_settings h) = (Return exts, out) ->
        exists e,
          exts = [e] /\
          include_dirs e = [Dir (path_str h SRC_BASE); Dirs (include_paths t)] /\
          existsb is_nested (include_dirs e) = true) /\
     (verdict h = Return true -> library_paths_keyword t = kw_device_type ->
        exists e out, run (get_extensions_settings h) = (Return [e], out))) /\
  (platform_system h = "Windows" ->
     (forall exts out,
        run (get_extensions_settings h) = (Return exts, out) ->
        exists e,
          exts = [e] /\
          include_dirs e =
            Dir (path_str h (Resolve SRC_BASE)) :: map Dir (include_paths t) /\
          existsb is_nested (include_dirs e) = false) /\
     (verdict h = Return true -> library_paths_keyword t = kw_cuda ->
        exists e out, run (get_extensions_settings h) = (Return [e], out))).
Proof.
  intros Ht.
  assert (Hkeep : forall exts out,
            run (get_extensions_settings h) = (Return exts, out) ->
            fst (run (platform_settings h t)) = Return exts).
  { intros exts out Hrun. destruct (assertions_enabled h) eqn:Ha.
    - destruct (verify_total h) as [[|] Hv];
        [|by rewrite (settings_refused h t) in Hrun].
      rewrite (settings_frame_checked h t Ht Ha Hv) in Hrun. by injection Hrun.
    - rewrite (settings_unchecked h t Ht Ha) in Hrun. by rewrite Hrun. }
  assert (Hgo : forall r o,
            verdict h = Return true -> run (platform_settings h t) = (Return r, o) ->
            exists out, run (get_extensions_settings h) = (Return r, out)).
  { intros r o Hv Ho. destruct (settings_result h t Ht (fun _ => Hv)) as [Hfst _].
    destruct (run (get_extensions_settings h)) as [r' out] eqn:Hg.
    rewrite Ho in Hfst. simpl in Hfst. subst r'. eauto. }
  split; intros Hs; split.
  - intros exts out Hrun. apply Hkeep in Hrun.
    destruct (keyword_cases t) as [Hk|Hk].
    + destruct (linux_branch_raises h t Hs Hk) as [o Ho]. by rewrite Ho in Hrun.
    + destruct (linux_branch h t Hs Hk) as (o & Ho & _). rewrite Ho in Hrun.
      injection Hrun as <-. eexists. split; [reflexivity|]. by split.
  - intros Hv Hk. destruct (linux_branch h t Hs Hk) as (o & Ho & _).
    destruct (Hgo _ _ Hv Ho) as [out Hout]. eauto.
  - intros exts out Hrun. apply Hkeep in Hrun.
    destruct (keyword_cases t) as [Hk|Hk].
    + destruct (windows_branch h t Hs Hk) as (o & Ho & _). rewrite Ho in Hrun.
      injection Hrun as <-. eexists. split; [reflexivity|]. split; [reflexivity|].
      simpl. apply map_Dir_flat.
    + destruct (windows_branch_raises h t Hs Hk) as [o Ho]. by rewrite Ho in Hrun.
  - intros Hv Hk. destruct (windows_branch h t Hs Hk) as (o & Ho & _).
    destruct (Hgo _ _ Hv Ho) as [out Hout]. eauto.
Qed.

Lemma include_dirs_shapes_witness :
  (exists e,
     fst (run (get_extensions_settings Hosts.linux_12_6)) = Return [e] /\
     include_dirs e =
       [Dir "ops/src/ha4detr";
        Dirs ["/site/torch/include"; "/site/torch/include/torch/csrc/api/include"]] /\
     existsb is_nested (include_dirs e) = true) /\
  (exists e,
     fst (run (get_extensions_settings Hosts.windows)) = Return [e] /\
     include_dirs e =
       [Dir "\repo\ops\src\ha4detr"; Dir "/site/torch/include";
        Dir "/site/torch/include/torch/csrc/api/include"] /\
     existsb is_nested (include_dirs e) = false).
Proof.
  split.
  - destruct (include_dirs_shapes Hosts.linux_12_6 Hosts.torch_12_6 eq_refl) as [H _].
    destruct (H eq_refl) as [Hshape _].
    edestruct Hshape as (e & He & Hd & Hn); [vm_compute; reflexivity|].
    exists e. split; [by rewrite <- He | split; [exact Hd | exact Hn]].
  - destruct (include_dirs_shapes Hosts.windows Hosts.torch_12_1 eq_refl) as [_ H].
    destruct (H eq_refl) as [Hshape _].
    edestruct Hshape as (e & He & Hd & Hn); [vm_compute; reflexivity|].
    exists e. split; [by rewrite <- He | split; [exact Hd | exact Hn]].
Defined.
(** ** How a refusal is reported *)

(** C1 does not hold as stated: on a Linux host without a visible device the
    call raises an [AssertionError] whose message is the fixed text of the
    assertion. The reason was printed by the check; the error carries neither
    it nor the words [no accelerator device]. *)
Lemma abort_error_has_no_reason :
  platform_system Hosts.linux_no_device = "Linux" /\
  torch Hosts.linux_no_device = Some Hosts.torch_no_device /\
  cuda_is_available Hosts.torch_no_device = false /\
  verdict Hosts.linux_no_device = Return false /\
  exists msg,
    run (get_extensions_settings Hosts.linux_no_device) =
      (Raise (AssertionError msg), [msg_no_device]) /\
    msg_no_device <> [Text msg] /\
    PyStr.contains "no accelerator device" msg = false.
Proof.
  repeat (split; [reflexivity|]).
  exists assert_message. split; [reflexivity|]. split; [discriminate | reflexivity].
Qed.

(** C1, amended: on Windows and Linux with torch importable and assertions
    enabled, when the check returns [False] the call raises one
    [AssertionError] with the fixed message of the assertion, after the check
    has printed its reason and nothing else; with no visible device that
    printed reason is the [CUDA is NOT available] line. Without torch the
    opening import raises [ImportError] before the check is run. *)
Theorem refusal_is_fixed_assertion (h : Host) :
  cuda_platform (platform_system h) = true ->
  (torch h = None ->
     run (get_extensions_settings h) = (Raise ImportError, [])) /\
  (forall t, torch h = Some t ->
     assertions_enabled h = true ->
     verdict h = Return false ->
     run (get_extensions_settings h) =
       (Raise (AssertionError assert_message), verifier_output h) /\
     (cuda_is_available t = false -> verifier_output h = [msg_no_device])).
Proof.
  intros Hp. split; [apply settings_no_torch|].
  intros t Ht Ha Hv. split; [by apply (settings_refused h t)|].
  intros Hno. unfold verifier_output, run, _verify_cuda_environment.
  rewrite Hp, Ht, Hno. reflexivity.
Qed.

Lemma refusal_is_fixed_assertion_witness :
  run (get_extensions_settings Hosts.linux_no_device) =
    (Raise (AssertionError assert_message), [msg_no_device]).
Proof.
  destruct (refusal_is_fixed_assertion Hosts.linux_no_device eq_refl) as [_ H].
  destruct (H Hosts.torch_no_device eq_refl eq_refl eq_refl) as [Hrun Hout].
  rewrite Hrun, (Hout eq_refl). reflexivity.
Defined.

(** ** Platforms without CUDA *)

(** C2 does not hold as stated: on a macOS host with torch installed, Python
    run with assertions as usual and no CPU source, where the call does
    return its descriptor, the output starts
    with the line that only the check prints, so the check was run; and the
    descriptor carries flags for [nvcc]. *)
Lemma darwin_runs_the_check :
  platform_system Hosts.darwin_empty = "Darwin" /\
  verifier_output Hosts.darwin_empty = [msg_unsupported "Darwin"] /\
  exists e rest,
    run (get_extensions_settings Hosts.darwin_empty) =
      (Return [e], verifier_output Hosts.darwin_empty ++ rest) /\
    In ("nvcc", ["-D_GLIBCXX_USE_CXX11_ABI=1"; "-std=c++17"]) (extra_compile_args e).
Proof.
  split; [reflexivity | split; [reflexivity|]].
  eexists _, _. split; [vm_compute; reflexivity|]. simpl. right. left. reflexivity.
Qed.

(** C2, amended: on macOS the check passes at once, whatever the runtime,
    printing only its unsupported-platform line, and with assertions enabled
    the call does run it: that line opens the output. Without torch the
    opening import raises [ImportError]. With torch, any descriptor the call
    returns is a single [CppExtension], with the local include directory
    only, none of the CUDA sources, and the same flag list under both [cxx]
    and [nvcc]; and it does return one when the CPU glob finds nothing. *)
Theorem darwin_settings (h : Host) :
  platform_system h = "Darwin" ->
  run (_verify_cuda_environment h) = (Return true, [msg_unsupported "Darwin"]) /\
  (torch h = None -> run (get_extensions_settings h) = (Raise ImportError, [])) /\
  (forall t, torch h = Some t ->
     (forall exts out,
        run (get_extensions_settings h) = (Return exts, out) ->
        exists e,
          exts = [e] /\
          (assertions_enabled h = true ->
             exists rest, out = msg_unsupported "Darwin" :: rest) /\
          class e = CppExtension /\
          uses_accelerator e = false /\
          include_dirs e = [Dir (path_str h SRC_BASE)] /\
          Forall (fun s => ~ In s (map (rel h) (path_glob h SRC_CUDA "*.cu")))
                 (sources e) /\
          extra_compile_args e = [("cxx", cxx11_flags); ("nvcc", cxx11_flags)]) /\
     (path_glob h SRC_CPU "*.cpp" = [] ->
        exists e out, run (get_extensions_settings h) = (Return [e], out))).
Proof.
  intros Hs.
  assert (Hrun : run (_verify_cuda_environment h) =
                   (Return true, [msg_unsupported "Darwin"])).
  { rewrite (soft_pass h (darwin_not_cuda h Hs)). by rewrite Hs. }
  assert (Hv : verdict h = Return true) by (unfold verdict; by rewrite Hrun).
  assert (Ho : verifier_output h = [msg_unsupported "Darwin"])
    by (unfold verifier_output; by rewrite Hrun).
  split; [exact Hrun | split; [apply settings_no_torch|]].
  intros t Ht.
  destruct (settings_result h t Ht (fun _ => Hv)) as (Hfst & before & Hsnd & Hbefore).
  destruct (darwin_branch h t [] Hs) as (out' & Hnil & Hcons).
  fold (run (platform_settings h t)) in Hnil, Hcons.
  destruct (run (get_extensions_settings h)) as [r o] eqn:Hg. simpl in Hfst, Hsnd.
  split.
  - intros exts out [= -> ->].
    destruct (path_glob h SRC_CPU "*.cpp") as [|p ps] eqn:Hgl.
    2: { rewrite Hcons in Hfst by done. discriminate Hfst. }
    rewrite (Hnil eq_refl) in Hfst. injection Hfst as ->.
    eexists. split; [reflexivity|]. split.
    + intros Ha. rewrite Hsnd, Hbefore, Ha, Ho. simpl. eauto.
    + repeat split. constructor.
  - intros Hgl. rewrite (Hnil Hgl) in Hfst. simpl in Hfst. subst r. eauto.
Qed.

Lemma darwin_settings_witness :
  run (_verify_cuda_environment Hosts.darwin) = (Return true, [msg_unsupported "Darwin"]) /\
  exists e out, run (get_extensions_settings Hosts.darwin_empty) = (Return [e], out).
Proof.
  split.
  - apply (proj1 (darwin_settings Hosts.darwin eq_refl)).
  - destruct (darwin_settings Hosts.darwin_empty eq_refl) as (_ & _ & H).
    destruct (H Hosts.torch_12_1 eq_refl) as [_ Hret]. apply Hret. reflexivity.
Defined.

(** C9 does not hold as stated: on a macOS host that has a [.cpp] file but no
    torch, the call raises the [ImportError] of its opening import, not an
    [AttributeError]. *)
Lemma darwin_without_torch :
  platform_system Hosts.darwin_no_torch = "Darwin" /\
  path_glob Hosts.darwin_no_torch SRC_CPU "*.cpp" = [Div SRC_CPU "hungarian.cpp"] /\
  run (get_extensions_settings Hosts.darwin_no_torch) = (Raise ImportError, []).
Proof. split; [|split]; reflexivity. Qed.

(** C9, amended: on macOS with torch importable, the call raises
    [AttributeError] whenever the CPU glob finds a file, because the branch
    asks [relative_to] of the strings that [rel] made; it returns a
    descriptor only when the glob finds none, and that descriptor has no
    sources. Without torch it raises [ImportError] instead. *)
Theorem darwin_relative_to_raises (h : Host) :
  platform_system h = "Darwin" ->
  (torch h = None -> run (get_extensions_settings h) = (Raise ImportError, [])) /\
  (forall t, torch h = Some t ->
     (path_glob h SRC_CPU "*.cpp" <> [] ->
        exists out,
          run (get_extensions_settings h) =
            (Raise (AttributeError "'str' object has no attribute 'relative_to'"), out)) /\
     (forall exts out,
        run (get_extensions_settings h) = (Return exts, out) ->
        path_glob h SRC_CPU "*.cpp" = [] /\
        exists e, exts = [e] /\ sources e = [])).
Proof.
  intros Hs. split; [apply settings_no_torch|]. intros t Ht.
  assert (Hv : verdict h = Return true).
  { unfold verdict. by rewrite (soft_pass h (darwin_not_cuda h Hs)). }
  destruct (settings_result h t Ht (fun _ => Hv)) as [Hfst _].
  destruct (darwin_branch h t [] Hs) as (out' & Hnil & Hcons).
  fold (run (platform_settings h t)) in Hnil, Hcons.
  destruct (run (get_extensions_settings h)) as [r o] eqn:Hg. simpl in Hfst.
  split.
  - intros Hgl. rewrite (Hcons Hgl) in Hfst. simpl in Hfst. subst r. eauto.
  - intros exts out [= -> ->].
    destruct (path_glob h SRC_CPU "*.cpp") as [|p ps] eqn:Hgl.
    + split; [reflexivity|]. rewrite (Hnil eq_refl) in Hfst.
      injection Hfst as ->. eauto.
    + rewrite Hcons in Hfst by done. discriminate Hfst.
Qed.

Lemma darwin_relative_to_raises_witness :
  exists out,
    run (get_extensions_settings Hosts.darwin) =
      (Raise (AttributeError "'str' object has no attribute 'relative_to'"), out).
Proof.
  destruct (darwin_relative_to_raises Hosts.darwin eq_refl) as [_ H].
  destruct (H Hosts.torch_12_1 eq_refl) as [Hraise _]. apply Hraise. discriminate.
Defined.

(** C4 does not hold as stated: on a FreeBSD host without torch the call
    raises. *)
Lemma other_platform_can_raise :
  platform_system Hosts.freebsd_no_torch <> "Linux" /\
  platform_system Hosts.freebsd_no_torch <> "Windows" /\
  platform_system Hosts.freebsd_no_torch <> "Darwin" /\
  run (get_extensions_settings Hosts.freebsd_no_torch) = (Raise ImportError, []).
Proof. repeat (split; [discriminate|]). reflexivity. Qed.

(** C4, amended: on a platform other than Linux, Windows and macOS the call
    returns the empty list whenever torch is importable, whatever else the
    runtime, the environment and the file system are like; without torch it
    raises the [ImportError] of its opening import. *)
Theorem other_platform_settings (h : Host) :
  platform_system h <> "Linux" ->
  platform_system h <> "Windows" ->
  platform_system h <> "Darwin" ->
  (forall t, torch h = Some t ->
     exists out, run (get_extensions_settings h) = (Return [], out)) /\
  (torch h = None -> run (get_extensions_settings h) = (Raise ImportError, [])).
Proof.
  intros Hl Hw Hd.
  split; [|apply settings_no_torch]. intros t Ht.
  assert (Hp : cuda_platform (platform_system h) = false).
  { unfold cuda_platform. apply String.eqb_neq in Hl, Hw. by rewrite Hw, Hl. }
  assert (Hv : verdict h = Return true)
    by (unfold verdict; by rewrite (soft_pass h Hp)).
  destruct (settings_result h t Ht (fun _ => Hv)) as [Hfst _].
  destruct (other_branch h t Hp Hd) as [o Ho].
  destruct (run (get_extensions_settings h)) as [r out] eqn:Hg.
  rewrite Ho in Hfst. simpl in Hfst. subst r. eauto.
Qed.

Lemma other_platform_settings_witness :
  exists out, run (get_extensions_settings Hosts.freebsd) = (Return [], out).
Proof.
  destruct (other_platform_settings Hosts.freebsd) as [H _]; try discriminate.
  apply (H Hosts.torch_12_1). reflexivity.
Defined.
(** * Further properties of the module *)

(** ** When the check passes, and what a refusal prints *)

(** X1: the check returns [True] exactly when the platform is neither Windows
    nor Linux, or torch is importable and checks 2 to 7 all pass. *)
Theorem verdict_true_iff (h : Host) :
  verdict h = Return true <->
  cuda_platform (platform_system h) = false \/
  exists t, torch h = Some t /\ runtime_ready h t = true /\ toolkit_ready h t = true.
Proof.
  split.
  - unfold verdict, run, _verify_cuda_environment.
    destruct (cuda_platform (platform_system h)) eqn:Hp; [|by left]. simpl.
    destruct (torch h) as [t|]; [|discriminate].
    destruct (cuda_is_available t) eqn:Ha; [|discriminate].
    destruct (backends_cuda_is_built t) eqn:Hb; [|discriminate]. simpl.
    destruct (PyStr.nonempty (version_cuda t)) eqn:Hv; [|discriminate].
    destruct (PyStr.nonempty (toolkit_home h t)) as [home|] eqn:Hh; [|discriminate].
    destruct (path_exists h (nvcc_path h home)) eqn:He; [|discriminate].
    intros _. right. exists t.
    unfold runtime_ready, toolkit_ready, PyStr.truthy.
    by rewrite Hp, Ha, Hb, Hv, Hh, He.
  - intros [Hp | (t & Ht & Hr & Hk)].
    + unfold verdict. by rewrite (soft_pass h Hp).
    + destruct (runtime_ready_inv h t Hr) as (_ & _ & _ & v & Hv).
      unfold toolkit_ready in Hk.
      destruct (PyStr.nonempty (toolkit_home h t)) as [home|] eqn:Hh; [|discriminate].
      unfold verdict. by rewrite (verify_nvcc_found h t v home).
Qed.

Lemma verdict_true_iff_witness :
  verdict Hosts.windows = Return true /\
  exists t, torch Hosts.linux = Some t /\
            runtime_ready Hosts.linux t = true /\ toolkit_ready Hosts.linux t = true.
Proof.
  split.
  - apply (proj2 (verdict_true_iff Hosts.windows)). right.
    exists Hosts.torch_12_1. split; [|split]; reflexivity.
  - destruct (proj1 (verdict_true_iff Hosts.linux) eq_refl) as [Hp | Ht].
    + discriminate Hp.
    + exact Ht.
Defined.

(** X2: a refusal is never silent and never mixed with a pass. When the check
    returns [False] its whole output is one of the six reasons (the missing
    compiler takes two lines); and [CUDA environment OK] is printed exactly
    when the check returns [True] on Windows or Linux. *)
Theorem refusal_reasons (h : Host) :
  (verdict h = Return false ->
     verifier_output h = [msg_no_torch] \/
     verifier_output h = [msg_no_device] \/
     verifier_output h = [msg_not_built] \/
     verifier_output h = [msg_no_version] \/
     verifier_output h = [msg_no_home] \/
     exists cuda_home,
       verifier_output h = [msg_no_nvcc h (nvcc_path h cuda_home); msg_incomplete]) /\
  (In msg_ok (verifier_output h) <->
     verdict h = Return true /\ cuda_platform (platform_system h) = true).
Proof.
  unfold verdict, verifier_output, run, _verify_cuda_environment.
  destruct (cuda_platform (platform_system h)); simpl.
  2: { split; [discriminate|]. split; [|intros [_ ?]; discriminate].
       intros [H|[]]. discriminate H. }
  destruct (torch h) as [t|]; simpl.
  2: { split; [by left|]. split; [|intros [? _]; discriminate].
       intros [H|[]]. discriminate H. }
  destruct (cuda_is_available t); simpl.
  2: { split; [by right; left|]. split; [|intros [? _]; discriminate].
       intros [H|[]]. discriminate H. }
  destruct (backends_cuda_is_built t); simpl.
  2: { split; [by right; right; left|]. split; [|intros [? _]; discriminate].
       intros [H|[]]. discriminate H. }
  destruct (PyStr.nonempty (version_cuda t)) as [v|]; simpl.
  2: { split; [by right; right; right; left|]. split; [|intros [? _]; discriminate].
       intros [H|[]]. discriminate H. }
  destruct (PyStr.nonempty (toolkit_home h t)) as [home|]; simpl.
  2: { split; [by right; right; right; right; left|].
       split; [|intros [? _]; discriminate]. intros [H|[]]. discriminate H. }
  destruct (path_exists h (nvcc_path h home)); simpl.
  2: { split; [right; right; right; right; right; by exists home|].
       split; [|intros [? _]; discriminate]. intros [H|[H|[]]]; discriminate H. }
  destruct (PyStr.contains _ _); run_py.
  - split; [discriminate|]. split; [done|]. intros _. by left.
  - split; [discriminate|]. split; [done|]. intros _.
    do 6 right. by left.
Qed.

Lemma refusal_reasons_witness :
  verifier_output Hosts.linux_no_home = [msg_no_home] /\
  In msg_ok (verifier_output Hosts.linux).
Proof.
  split.
  - destruct (proj1 (refusal_reasons Hosts.linux_no_home) eq_refl)
      as [H|[H|[H|[H|[H|[home H]]]]]];
      solve [exact H | discriminate H].
  - apply (proj2 (refusal_reasons Hosts.linux)). split; reflexivity.
Defined.

(** ** The version comparison *)

(** X3: on a host that passes checks 1 to 7 the warning is printed exactly
    when [major], the text of torch's CUDA version up to its first dot, occurs
    nowhere in the answer of [nvcc --version] after [str.lower] (the empty
    text when the query raised); any occurrence, in the release number or
    elsewhere, silences it. *)
Theorem mismatch_warning_iff (h : Host) (t : Torch)
    (torch_cuda major cuda_home lowered : string) :
  torch h = Some t ->
  runtime_ready h t = true ->
  PyStr.nonempty (version_cuda t) = Some torch_cuda ->
  PyStr.nonempty (toolkit_home h t) = Some cuda_home ->
  path_exists h (nvcc_path h cuda_home) = true ->
  first_field torch_cuda major ->
  lowered = match popen_read h (nvcc_path h cuda_home) with
            | Some answer => str_lower h answer
            | None => ""
            end ->
  In [Text "* WARNING: CUDA version mismatch between PyTorch and system *"]
     (verifier_output h) <->
  ~ occurs major lowered.
Proof.
  intros Ht Hr Hv Hh He Hmajor ->. rewrite <- contains_false.
  unfold verifier_output. rewrite (verify_nvcc_found h t torch_cuda cuda_home) by done.
  rewrite (before_dot_field torch_cuda major Hmajor). unfold nvcc_output.
  destruct (PyStr.contains _ _); simpl.
  - split; [|done]. intros [H|[]]. discriminate H.
  - split; [done|]. intros _. right. by left.
Qed.

Lemma mismatch_warning_iff_witness :
  In [Text "* WARNING: CUDA version mismatch between PyTorch and system *"]
     (verifier_output Hosts.linux) /\
  ~ In [Text "* WARNING: CUDA version mismatch between PyTorch and system *"]
       (verifier_output (with_popen (fun _ => Some Hosts.nvcc_12_4) Hosts.linux)).
Proof.
  assert (Hfield : first_field "12.1" "12").
  { split; [by apply contains_false | right; by exists "1"]. }
  split.
  - apply (proj2 (mismatch_warning_iff Hosts.linux Hosts.torch_12_1
                    "12.1" "12" "/usr/local/cuda" _
                    eq_refl eq_refl eq_refl eq_refl eq_refl Hfield eq_refl)).
    by apply contains_false.
  - intros Hin.
    apply (proj1 (mismatch_warning_iff
                    (with_popen (fun _ => Some Hosts.nvcc_12_4) Hosts.linux)
                    Hosts.torch_12_1 "12.1" "12" "/usr/local/cuda" _
                    eq_refl eq_refl eq_refl eq_refl eq_refl Hfield eq_refl)) in Hin.
    apply Hin. by exists "cuda compilation tools, release ", ".4, v12.4.131".
Defined.
(** ** The outcomes of [get_extensions_settings] *)


(** When the call gets below its assertion, it ends as the branch does. *)
Lemma settings_below_assertion (h : Host) (t : Torch) :
  torch h = Some t ->
  (exists msg out, run (get_extensions_settings h) = (Raise (AssertionError msg), out) /\
                   msg = assert_message /\ assertions_enabled h = true /\
                   verdict h = Return false /\ out = verifier_output h) \/
  ((assertions_enabled h = true -> verdict h = Return true) /\
   fst (run (get_extensions_settings h)) = fst (run (platform_settings h t))).
Proof.
  intros Ht. destruct (assertions_enabled h) eqn:Ha.
  - destruct (verify_total h) as [[|] Hv].
    + right. split; [done|]. by rewrite (settings_frame_checked h t Ht Ha Hv).
    + left. rewrite (settings_refused h t Ht Ha Hv). eauto 10.
  - right. split; [done|]. by rewrite (settings_unchecked h t Ht Ha).
Qed.




(** X6: whatever is returned is at most one extension, always named
    [ha4detr._hungarian]; it is a CUDA extension exactly on Windows and
    Linux, a C++ one on macOS, and the list is empty exactly on the other
    platforms. *)
Theorem settings_shape (h : Host) (exts : list Extension) (out : list line) :
  run (get_extensions_settings h) = (Return exts, out) ->
  (exts = [] <-> cuda_platform (platform_system h) = false /\
                 platform_system h <> "Darwin") /\
  (forall e, In e exts ->
     exts = [e] /\
     name e = "ha4detr._hungarian" /\
     uses_accelerator e = cuda_platform (platform_system h)).
Proof.
  intros Hrun.
  destruct (torch h) as [t|] eqn:Ht; [|by rewrite settings_no_torch in Hrun].
  destruct (settings_below_assertion h t Ht)
    as [(msg & o & Hr & _) | [_ Hfst]]; [by rewrite Hr in Hrun|].
  rewrite Hrun in Hfst. simpl in Hfst.
  destruct (platform_settings_cases h t)
    as [(_ & _ & o & Ho) | [(_ & _ & o & Ho) | [(_ & _ & o & Ho) | (_ & _ & _ & exts' & o & Ho & Hshape)]]];
    rewrite Ho in Hfst; try discriminate Hfst.
  injection Hfst as ->.
  destruct Hshape as [(-> & Hp & Hd) | (e' & -> & Hn & Hu & Hwhich)].
  - split; [done|]. intros e [].
  - split.
    + split; [discriminate|]. intros [Hp Hd].
      destruct Hwhich as [? | Hc]; [done | congruence].
    + intros e [<-|[]]. done.
Qed.

Lemma settings_shape_witness :
  exists e,
    fst (run (get_extensions_settings Hosts.windows)) = Return [e] /\
    name e = "ha4detr._hungarian" /\ uses_accelerator e = true.
Proof.
  edestruct (settings_shape Hosts.windows) as [_ H]; [vm_compute; reflexivity|].
  eexists. split; [vm_compute; reflexivity|].
  destruct (H _ (or_introl eq_refl)) as (_ & Hn & Hu). exact (conj Hn Hu).
Defined.



(** X8: with torch importable and assertions enabled, everything the call
    prints comes after the output of the check, and after a refusal nothing
    comes: the check's reason is the last thing on the terminal before the
    [AssertionError]. With assertions disabled the check prints nothing, as
    it is not run: the output is that of the platform branch. *)
Theorem check_output_first (h : Host) (t : Torch) :
  torch h = Some t ->
  (assertions_enabled h = true ->
     exists rest,
       snd (run (get_extensions_settings h)) = verifier_output h ++ rest /\
       (verdict h = Return false -> rest = [])) /\
  (assertions_enabled h = false ->
     snd (run (get_extensions_settings h)) = snd (run (platform_settings h t))).
Proof.
  intros Ht. split; intros Ha.
  - destruct (verify_total h) as [[|] Hv].
    + rewrite (settings_frame_checked h t Ht Ha Hv). simpl.
      eexists. split; [reflexivity|]. intros Hf. rewrite Hv in Hf. discriminate Hf.
    + rewrite (settings_refused h t Ht Ha Hv). simpl.
      exists []. split; [by rewrite app_nil_r | done].
  - by rewrite (settings_unchecked h t Ht Ha).
Qed.

Lemma check_output_first_witness :
  (exists rest,
     snd (run (get_extensions_settings Hosts.linux_no_nvcc)) =
       verifier_output Hosts.linux_no_nvcc ++ rest) /\
  snd (run (get_extensions_settings (with_optimize Hosts.linux_12_6_no_device))) =
    snd (run (platform_settings (with_optimize Hosts.linux_12_6_no_device)
                Hosts.torch_12_6_no_device)).
Proof.
  split.
  - destruct (check_output_first Hosts.linux_no_nvcc Hosts.torch_12_1 eq_refl)
      as [Hon _].
    destruct (Hon eq_refl) as (rest & H & _). exists rest. exact H.
  - destruct (check_output_first (with_optimize Hosts.linux_12_6_no_device)
                Hosts.torch_12_6_no_device eq_refl) as [_ Hoff].
    apply Hoff. reflexivity.
Defined.
(** ** [setup.py] *)

Lemma settings_frame (h : Host) (out : list line) :
  get_extensions_settings h out =
    (fst (run (get_extensions_settings h)),
     out ++ snd (run (get_extensions_settings h))).
Proof.
  destruct (torch h) as [t|] eqn:Ht.
  - destruct (assertions_enabled h) eqn:Ha.
    + destruct (verify_total h) as [[|] Hv].
      * rewrite (settings_frame_checked h t Ht Ha Hv). simpl.
        unfold get_extensions_settings, py_assert. rewrite Ht, Ha.
        unfold bind at 1. unfold bind at 1. rewrite verify_frame, Hv.
        unfold ret. rewrite (platform_settings_frame h t (out ++ _)).
        by rewrite app_assoc.
      * rewrite (settings_refused h t Ht Ha Hv).
        unfold get_extensions_settings, py_assert. rewrite Ht, Ha.
        unfold bind at 1. unfold bind at 1. by rewrite verify_frame, Hv.
    + rewrite (settings_unchecked h t Ht Ha).
      unfold get_extensions_settings, py_assert. rewrite Ht, Ha.
      unfold bind at 1. unfold ret. apply platform_settings_frame.
  - rewrite (settings_no_torch h Ht). unfold get_extensions_settings. rewrite Ht.
    unfold raise. simpl. by rewrite app_nil_r.
Qed.

(** X9: under Python 3.6 to 3.9 the script does not touch the settings
    module: on every host, with or without torch, on any platform, it prints
    one line and calls [setup] with the name, the package directory, the
    version and an empty requirement list, and with no extension, no package
    list and no build command. Under Python 2 and Python 3.0 to 3.5 the
    script, which is written with f-strings, is not run at all: the
    interpreter stops with [SyntaxError] and nothing is printed. *)
Theorem old_style_setup (d : Driver) (h : Host) :
  (version_major d = 3 -> 6 <= version_minor d -> version_minor d < 10 ->
     run (setup_py d h) =
       (Return {| setup_name := "trackformer";
                  package_dir := Some [("", "src")];
                  version := Some "0.0.1";
                  install_requires := Some [];
                  packages := None;
                  ext_modules := None;
                  cmdclass := None |},
        [[Text "Using python version "; Text (version_info_str d);
          Text ", we would keep using old style setups"]])) /\
  (version_major d < 3 \/ (version_major d = 3 /\ version_minor d < 6) ->
     run (setup_py d h) = (Raise SyntaxError, [])).
Proof.
  split.
  - intros Hmaj Hlo Hhi. unfold run, setup_py, reads_fstrings.
    rewrite Hmaj. apply Nat.leb_le in Hlo. apply Nat.ltb_lt in Hhi.
    rewrite Hlo, Hhi. reflexivity.
  - intros Hold. unfold run, setup_py, reads_fstrings.
    destruct Hold as [Hmaj | [Hmaj Hmin]].
    + assert (H1 : Nat.ltb 3 (version_major d) = false) by (apply Nat.ltb_ge; lia).
      assert (H2 : Nat.eqb (version_major d) 3 = false) by (apply Nat.eqb_neq; lia).
      rewrite H1, H2. reflexivity.
    + assert (H2 : Nat.leb 6 (version_minor d) = false) by (apply Nat.leb_gt; lia).
      rewrite Hmaj, H2. reflexivity.
Qed.

Lemma old_style_setup_witness :
  (exists call out,
     run (setup_py Drivers.python_3_9 Hosts.freebsd_no_torch) = (Return call, out) /\
     ext_modules call = None) /\
  run (setup_py Drivers.python_3_5 Hosts.linux) = (Raise SyntaxError, []) /\
  run (setup_py Drivers.python_2_7 Hosts.linux) = (Raise SyntaxError, []).
Proof.
  refine (conj _ (conj _ _)).
  - eexists _, _. split.
    + apply (proj1 (old_style_setup Drivers.python_3_9 Hosts.freebsd_no_torch));
        simpl; lia.
    + reflexivity.
  - apply (proj2 (old_style_setup Drivers.python_3_5 Hosts.linux)). simpl. lia.
  - apply (proj2 (old_style_setup Drivers.python_2_7 Hosts.linux)). simpl. lia.
Defined.

(** X10: under Python 3.10 and later the script stands or falls with
    [get_extensions_settings]. It first prints one line naming the settings
    file under the script's directory. When the call returns, [setup] is
    called with the found packages, exactly the returned extensions and
    [BuildExtension] as the [build_ext] command; when it raises, the same
    exception leaves the script and [setup] is not called. Either way the
    output is that first line followed by the output of the call. *)
Theorem new_style_setup (d : Driver) (h : Host) :
  version_major d = 3 ->
  10 <= version_minor d ->
  (forall exts out,
     run (get_extensions_settings h) = (Return exts, out) ->
     run (setup_py d h) =
       (Return {| setup_name := "trackformer";
                  package_dir := None;
                  version := None;
                  install_requires := None;
                  packages :=
                    Some (find_packages d "src"
                            ["models.ops.src.cpu"; "models.ops.src.cuda"]);
                  ext_modules := Some exts;
                  cmdclass := Some [("build_ext", BuildExtension)] |},
        [Text "Using newer python version "; Text (version_info_str d);
         Text ", using new style install setups, loading setups from ";
         Text (path_str h
                 (Div (Div (Div (Div (Div (script_dir d) "src") "trackformer")
                                "models") "ops") "setup_settings.py"))] :: out)) /\
  (forall e out,
     run (get_extensions_settings h) = (Raise e, out) ->
     run (setup_py d h) =
       (Raise e,
        [Text "Using newer python version "; Text (version_info_str d);
         Text ", using new style install setups, loading setups from ";
         Text (path_str h
                 (Div (Div (Div (Div (Div (script_dir d) "src") "trackformer")
                                "models") "ops") "setup_settings.py"))] :: out)).
Proof.
  intros Hmaj Hmin.
  assert (Hread : reads_fstrings d = true).
  { assert (H6 : Nat.leb 6 (version_minor d) = true) by (apply Nat.leb_le; lia).
    unfold reads_fstrings. by rewrite Hmaj, H6. }
  assert (Hnew : Nat.eqb (version_major d) 3 && Nat.ltb (version_minor d) 10 = false).
  { apply andb_false_iff. right. apply Nat.ltb_ge. lia. }
  split.
  - intros exts out Hrun. unfold run at 1. unfold setup_py. rewrite Hread, Hnew.
    change (negb true) with false. cbv iota.
    unfold bind at 1. unfold print at 1. unfold bind at 1.
    rewrite settings_frame, Hrun. simpl.
    unfold build_ext_settings.
    destruct (torch h) as [t|] eqn:Ht; [reflexivity|].
    by rewrite (settings_no_torch h Ht) in Hrun.
  - intros e out Hrun. unfold run at 1. unfold setup_py. rewrite Hread, Hnew.
    change (negb true) with false. cbv iota.
    unfold bind at 1. unfold print at 1. unfold bind at 1.
    rewrite settings_frame, Hrun. reflexivity.
Qed.

Lemma new_style_setup_witness :
  (exists call out,
     run (setup_py Drivers.python_3_10 Hosts.linux_12_6) = (Return call, out) /\
     cmdclass call = Some [("build_ext", BuildExtension)]) /\
  (exists out,
     run (setup_py Drivers.python_3_10 Hosts.freebsd_no_torch) = (Raise ImportError, out)).
Proof.
  split.
  - destruct (new_style_setup Drivers.python_3_10 Hosts.linux_12_6) as [Hret _];
      [reflexivity | simpl; lia |].
    eexists _, _. split; [apply Hret; vm_compute; reflexivity | reflexivity].
  - destruct (new_style_setup Drivers.python_3_10 Hosts.freebsd_no_torch)
      as [_ Hraise]; [reflexivity | simpl; lia |].
    eexists. apply Hraise. reflexivity.
Defined.
(** ** What is and is not printed *)

Lemma verifier_never_blames_import (h : Host) (t : Torch) :
  torch h = Some t -> ~ In msg_no_torch (verifier_output h).
Proof.
  intros Ht. unfold verifier_output, run, _verify_cuda_environment. rewrite Ht.
  repeat case_match; run_py; intros Hin; simpl in Hin;
    repeat (destruct Hin as [Hin|Hin]; [discriminate Hin|]); exact Hin.
Qed.

Lemma platform_lines_not_import (h : Host) (t : Torch) :
  ~ In msg_no_torch (snd (run (platform_settings h t))).
Proof.
  unfold run, platform_settings, _IS_WINDOWS_BUILD.
  destruct (String.eqb (platform_system h) "Windows").
  { unfold _debug_print, _get_windows_settings, call_library_paths.
    destruct (lp_keyword_eqb _ _); run_py; intros H;
      repeat (destruct H as [H|H]; [discriminate H|]); exact H. }
  destruct (String.eqb (platform_system h) "Linux").
  { unfold _debug_print, _get_linux_settings, call_library_paths.
    destruct (lp_keyword_eqb _ _); run_py; intros H;
      repeat (destruct H as [H|H]; [discriminate H|]); exact H. }
  destruct (String.eqb (platform_system h) "Darwin").
  - destruct (path_glob h SRC_CPU "*.cpp"); unfold _debug_print; run_py; intros H;
      repeat (destruct H as [H|H]; [discriminate H|]); exact H.
  - unfold _debug_print. run_py. intros H.
    repeat (destruct H as [H|H]; [discriminate H|]). exact H.
Qed.

(** X11: the line [PyTorch must be installed BEFORE building ha4detr.] is
    never printed by [get_extensions_settings], on any host. The check can
    print it on its own, but the call imports from torch before it runs the
    check, so a host without torch gets the bare [ImportError] and an empty
    terminal. *)
Theorem install_hint_never_shown (h : Host) :
  ~ In msg_no_torch (snd (run (get_extensions_settings h))) /\
  (torch h = None ->
     verifier_output h = [msg_no_torch] \/ cuda_platform (platform_system h) = false).
Proof.
  split.
  - destruct (torch h) as [t|] eqn:Ht.
    + destruct (settings_below_assertion h t Ht)
        as [(msg & o & Hr & _ & _ & _ & ->) | [Hv _]].
      * rewrite Hr. simpl. by apply (verifier_never_blames_import h t).
      * destruct (settings_result h t Ht Hv) as (_ & before & Hsnd & ->).
        rewrite Hsnd, in_app_iff. intros [H|H].
        -- destruct (assertions_enabled h); [|destruct H].
           by apply (verifier_never_blames_import h t Ht).
        -- by apply (platform_lines_not_import h t).
    + rewrite (settings_no_torch h Ht). simpl. tauto.
  - intros Ht. unfold verifier_output, run, _verify_cuda_environment. rewrite Ht.
    destruct (cuda_platform (platform_system h)); [by left | by right].
Qed.

Lemma install_hint_never_shown_witness :
  verifier_output (Hosts.host "Linux" None ∅ false None [] []) = [msg_no_torch].
Proof.
  destruct (proj2 (install_hint_never_shown (Hosts.host "Linux" None ∅ false None [] []))
              eq_refl) as [H | H].
  - exact H.
  - discriminate H.
Defined.

(** X12: the [cuda_home] shown by the debug print is resolved from the two
    environment variables alone. It is the home the check used whenever one
    of them is a non-empty string; when the check fell back on the
    [CUDA_HOME] of torch, the debug print shows the value of [CUDA_PATH]
    instead, which is then [None] or empty. *)
Theorem debug_print_cuda_home (h : Host) (t : Torch) (out : list line) :
  exists shown,
    In [Text "CUDA_HOME="; Repr (of_opt (CUDA_HOME t));
        Text ", "; Text "cuda_home="; Repr (of_opt shown)]
       (snd (_debug_print h t out)) /\
    (PyStr.truthy (os_environ h !! "CUDA_HOME") = true \/
     PyStr.truthy (os_environ h !! "CUDA_PATH") = true ->
       shown = toolkit_home h t) /\
    (PyStr.truthy (os_environ h !! "CUDA_HOME") = false ->
     PyStr.truthy (os_environ h !! "CUDA_PATH") = false ->
       shown = os_environ h !! "CUDA_PATH" /\ PyStr.truthy shown = false /\
       toolkit_home h t = CUDA_HOME t).
Proof.
  eexists. split; [|split].
  - unfold _debug_print. run_py. rewrite in_app_iff. right. right. left. reflexivity.
  - unfold toolkit_home, PyStr.py_or.
    destruct (PyStr.truthy (os_environ h !! "CUDA_HOME")); [done|].
    intros [H|H]; [discriminate H | by rewrite H].
  - unfold toolkit_home, PyStr.py_or. by intros -> ->.
Qed.

Lemma debug_print_cuda_home_witness :
  toolkit_home Hosts.linux Hosts.torch_12_1 = Some "/usr/local/cuda" /\
  In [Text "CUDA_HOME="; Repr (VStr "/usr/local/cuda");
      Text ", "; Text "cuda_home="; Repr VNone]
     (snd (run (_debug_print Hosts.linux Hosts.torch_12_1))).
Proof.
  destruct (debug_print_cuda_home Hosts.linux Hosts.torch_12_1 [])
    as (shown & Hin & _ & Hfall).
  destruct (Hfall eq_refl eq_refl) as (-> & _ & Hhome).
  split; [exact Hhome | exact Hin].
Defined.
